(** * vector3: three interchangeable 3-component vector classes

    A shallow embedding of [Vector3_reg.h] (scalar fields),
    [Vector3f_simd.h] (one 128-bit SSE register of four floats) and
    [Vector3d_simd.h] (one 256-bit AVX register of four doubles), with
    the properties of the three classes checked against the code.

    Floating-point values are IEEE 754 binary floats as specified by
    the standard library's [SpecFloat] (round to nearest even, signed
    zeros and infinities, one NaN): [float] is binary32, [double] is
    binary64. *)

From Stdlib Require Import ZArith List String Bool Lia.
From Stdlib Require Import Floats.SpecFloat.
Import ListNotations.
Local Open Scope Z_scope.

(* ================================================================= *)
(** ** Element types *)

Module Elt.

(** The two element widths: [prec] bits of mantissa (implicit bit
    included) and the exponent [emax] of the infinities. *)
Record format := mkFormat { prec : Z; emax : Z }.

Definition binary32 : format := mkFormat 24 128.
Definition binary64 : format := mkFormat 53 1024.

Section Arith.
Variable fmt : format.

Definition add  : spec_float -> spec_float -> spec_float := SFadd  (prec fmt) (emax fmt).
Definition sub  : spec_float -> spec_float -> spec_float := SFsub  (prec fmt) (emax fmt).
Definition mul  : spec_float -> spec_float -> spec_float := SFmul  (prec fmt) (emax fmt).
Definition div  : spec_float -> spec_float -> spec_float := SFdiv  (prec fmt) (emax fmt).
Definition sqrt : spec_float -> spec_float := SFsqrt (prec fmt) (emax fmt).

(** An integer-valued literal such as [1.0] or [3.0f]. *)
Definition of_Z (n : Z) : spec_float :=
    binary_normalize (prec fmt) (emax fmt) n 0 false.
End Arith.

(** The literal [0.0] (and [0.0f]): positive zero. *)
Definition zero : spec_float := S754_zero false.

(** The literal [1.0]. *)
Definition one (fmt : format) : spec_float := of_Z fmt 1.

(** NaN or an infinity: the special values a division by zero makes. *)
Definition is_nan_or_inf (a : spec_float) : bool :=
  match a with
  | S754_nan | S754_infinity _ => true
  | _ => false
  end.

(** The sign bit of a number; NaN counts as unsigned. *)
Definition is_negative (a : spec_float) : bool :=
  match a with
  | S754_zero s | S754_infinity s | S754_finite s _ _ => s
  | S754_nan => false
  end.

(** A zero of either sign. *)
Definition is_zero (a : spec_float) : bool :=
  match a with
  | S754_zero _ => true
  | _ => false
  end.

(** A zero or a finite number: neither NaN nor an infinity. *)
Definition is_finite (a : spec_float) : bool := negb (is_nan_or_inf a).

Definition format_eqb (f g : format) : bool :=
  (prec f =? prec g) && (emax f =? emax g).

(** Conversion of a value of type [from] to type [to]: nothing to do
    between equal types, else the value is rounded to the nearest
    number of the target type ([float] to [double] is exact). *)
Definition cast (from to : format) (a : spec_float) : spec_float :=
  if format_eqb from to then a
  else match a with
       | S754_finite s m e => binary_round (prec to) (emax to) s m e
       | _ => a
       end.

End Elt.

(** Integer-valued literals of the two element types: [3.0f], [3.0]. *)
Definition f32 (n : Z) : spec_float := Elt.of_Z Elt.binary32 n.
Definition f64 (n : Z) : spec_float := Elt.of_Z Elt.binary64 n.

(* ================================================================= *)
(** ** Hardware registers and the intrinsics the classes call

    The intrinsics are Intel's ([xmmintrin.h], [smmintrin.h],
    [immintrin.h]); each definition follows the operation pseudocode of
    its instruction.  Lane 0 is the lowest element of the register. *)

Module Simd.

(** Four lanes: [__m128] (four floats) and [__m256d] (four doubles). *)
Record vec4 := mk4 { lane0 : spec_float; lane1 : spec_float;
                     lane2 : spec_float; lane3 : spec_float }.

(** Two lanes: [__m128d]. *)
Record vec2 := mk2 { lo : spec_float; hi : spec_float }.

Definition __m128  := vec4.
Definition __m256d := vec4.
Definition __m128d := vec2.

(** Lane selected by a two-bit index. *)
Definition lane (a : vec4) (i : Z) : spec_float :=
  match i with
  | 0 => lane0 a
  | 1 => lane1 a
  | 2 => lane2 a
  | _ => lane3 a
  end.

Definition lanewise (f : spec_float -> spec_float -> spec_float) (a b : vec4) : vec4 :=
  mk4 (f (lane0 a) (lane0 b)) (f (lane1 a) (lane1 b))
      (f (lane2 a) (lane2 b)) (f (lane3 a) (lane3 b)).

(** GCC vector subscript assignment [r[3] = v] on a four-lane value. *)
Definition set_lane3 (r : vec4) (v : spec_float) : vec4 :=
  mk4 (lane0 r) (lane1 r) (lane2 r) v.

(** [_MM_SHUFFLE(z, y, x, w)]: the 8-bit immediate (z<<6)|(y<<4)|(x<<2)|w. *)
Definition _MM_SHUFFLE (fp3 fp2 fp1 fp0 : Z) : Z :=
  Z.lor (Z.lor (Z.lor (Z.shiftl fp3 6) (Z.shiftl fp2 4)) (Z.shiftl fp1 2)) fp0.

(** Two-bit field [k] of an immediate. *)
Definition sel (imm : Z) (k : Z) : Z := Z.land (Z.shiftr imm (2 * k)) 3.

(** *** SSE, single precision *)

Definition _mm_setzero_ps : __m128 := mk4 Elt.zero Elt.zero Elt.zero Elt.zero.

(** [_mm_set_ps(e3, e2, e1, e0)]: the last argument is lane 0. *)
Definition _mm_set_ps (e3 e2 e1 e0 : spec_float) : __m128 := mk4 e0 e1 e2 e3.
Definition _mm_set1_ps (a : spec_float) : __m128 := mk4 a a a a.

Definition _mm_add_ps : __m128 -> __m128 -> __m128 := lanewise (Elt.add Elt.binary32).
Definition _mm_sub_ps : __m128 -> __m128 -> __m128 := lanewise (Elt.sub Elt.binary32).
Definition _mm_mul_ps : __m128 -> __m128 -> __m128 := lanewise (Elt.mul Elt.binary32).
Definition _mm_div_ps : __m128 -> __m128 -> __m128 := lanewise (Elt.div Elt.binary32).

(** SHUFPS: the two low lanes come from [a], the two high ones from [b]. *)
Definition _mm_shuffle_ps (a b : __m128) (imm8 : Z) : __m128 :=
  mk4 (lane a (sel imm8 0)) (lane a (sel imm8 1))
      (lane b (sel imm8 2)) (lane b (sel imm8 3)).

(** DPPS: bits 4..7 of the immediate choose the products that enter
    the sum, bits 0..3 the lanes that receive it. *)
Definition _mm_dp_ps (a b : __m128) (imm8 : Z) : __m128 :=
  let temp (j : Z) :=
    if Z.testbit imm8 (4 + j)
    then Elt.mul Elt.binary32 (lane a j) (lane b j) else Elt.zero in
  let sum :=
    Elt.add Elt.binary32 (Elt.add Elt.binary32 (temp 3) (temp 2))
                         (Elt.add Elt.binary32 (temp 1) (temp 0)) in
  let out (j : Z) := if Z.testbit imm8 j then sum else Elt.zero in
  mk4 (out 0) (out 1) (out 2) (out 3).

Definition _mm_cvtss_f32 (a : __m128) : spec_float := lane0 a.

Definition _mm_sqrt_ss (a : __m128) : __m128 :=
  mk4 (Elt.sqrt Elt.binary32 (lane0 a)) (lane1 a) (lane2 a) (lane3 a).

(** RSQRTSS and RSQRTPS return an approximation of 1/sqrt whose bits
    the architecture leaves to the processor (relative error at most
    1.5 * 2^-12); [rsqrt] stands for the processor's function, the
    same one for both instructions. *)
Section Rsqrt.
Variable rsqrt : spec_float -> spec_float.

Definition _mm_rsqrt_ss (a : __m128) : __m128 :=
    mk4 (rsqrt (lane0 a)) (lane1 a) (lane2 a) (lane3 a).

Definition _mm_rsqrt_ps (a : __m128) : __m128 :=
    mk4 (rsqrt (lane0 a)) (rsqrt (lane1 a)) (rsqrt (lane2 a)) (rsqrt (lane3 a)).
End Rsqrt.

(** *** AVX / AVX2, double precision *)

Definition _mm256_setzero_pd : __m256d := mk4 Elt.zero Elt.zero Elt.zero Elt.zero.
Definition _mm256_set_pd (e3 e2 e1 e0 : spec_float) : __m256d := mk4 e0 e1 e2 e3.
Definition _mm256_set1_pd (a : spec_float) : __m256d := mk4 a a a a.

Definition _mm256_add_pd : __m256d -> __m256d -> __m256d := lanewise (Elt.add Elt.binary64).
Definition _mm256_sub_pd : __m256d -> __m256d -> __m256d := lanewise (Elt.sub Elt.binary64).
Definition _mm256_mul_pd : __m256d -> __m256d -> __m256d := lanewise (Elt.mul Elt.binary64).
Definition _mm256_div_pd : __m256d -> __m256d -> __m256d := lanewise (Elt.div Elt.binary64).

(** VPERMPD: every result lane is the source lane its two-bit field names. *)
Definition _mm256_permute4x64_pd (a : __m256d) (imm8 : Z) : __m256d :=
  mk4 (lane a (sel imm8 0)) (lane a (sel imm8 1))
      (lane a (sel imm8 2)) (lane a (sel imm8 3)).

(** VHADDPD: pairwise sums inside each 128-bit half. *)
Definition _mm256_hadd_pd (a b : __m256d) : __m256d :=
  mk4 (Elt.add Elt.binary64 (lane0 a) (lane1 a))
      (Elt.add Elt.binary64 (lane0 b) (lane1 b))
      (Elt.add Elt.binary64 (lane2 a) (lane3 a))
      (Elt.add Elt.binary64 (lane2 b) (lane3 b)).

Definition _mm256_extractf128_pd (a : __m256d) (imm8 : Z) : __m128d :=
  if Z.testbit imm8 0 then mk2 (lane2 a) (lane3 a) else mk2 (lane0 a) (lane1 a).

Definition _mm256_castpd256_pd128 (a : __m256d) : __m128d :=
  mk2 (lane0 a) (lane1 a).

Definition _mm_add_pd (a b : __m128d) : __m128d :=
  mk2 (Elt.add Elt.binary64 (lo a) (lo b)) (Elt.add Elt.binary64 (hi a) (hi b)).

Definition _mm_sqrt_pd (a : __m128d) : __m128d :=
  mk2 (Elt.sqrt Elt.binary64 (lo a)) (Elt.sqrt Elt.binary64 (hi a)).

Definition _mm_cvtsd_f64 (a : __m128d) : spec_float := lo a.

End Simd.

(* ================================================================= *)
(** ** Mutating member functions

    A member function that writes to [*this] or to [std::cerr] is a
    state transformer over the receiver and the text written so far to
    the error channel (one entry per [std::endl]-terminated message).
    A function returning [*this] by reference returns [tt]: the
    reference is the receiver held in the state. *)

Module Method.

Record state (V : Type) := mkState { this : V; cerr : list string }.
Arguments mkState {V} _ _.
Arguments this {V} _.
Arguments cerr {V} _.

Definition M (V A : Type) : Type := state V -> A * state V.

Definition ret {V A} (a : A) : M V A := fun s => (a, s).

Definition bind {V A B} (c : M V A) (k : A -> M V B) : M V B :=
  fun s => let (a, s') := c s in k a s'.

(** Read the receiver. *)
Definition self {V} : M V V := fun s => (this s, s).

(** Assign to members of the receiver. *)
Definition update {V} (f : V -> V) : M V unit :=
  fun s => (tt, mkState (f (this s)) (cerr s)).

(** [std::cerr << msg << std::endl]. *)
Definition report {V} (msg : string) : M V unit :=
  fun s => (tt, mkState (this s) (cerr s ++ [msg])).

(** Run a member function on receiver [v] with an empty error channel. *)
Definition call {V A} (c : M V A) (v : V) : A * state V := c (mkState v []).

(** The receiver after the call. *)
Definition after {V A} (c : M V A) (v : V) : V := this (snd (call c v)).

(** What the call wrote to [std::cerr]. *)
Definition diagnostics {V A} (c : M V A) (v : V) : list string := cerr (snd (call c v)).

End Method.

Declare Scope method_scope.
Delimit Scope method_scope with method.
Notation "x <- c ;; k" := (Method.bind c (fun x => k))
  (at level 61, c at next level, right associativity) : method_scope.
Notation "c ;; k" := (Method.bind c (fun _ => k))
  (at level 61, right associativity) : method_scope.

(** The two messages of the comma initializer, the same in the three classes. *)
Definition bad_use_message : string :=
  "Error! Bad use of comma initializer. Do not mess up the code! Assign values to vector using operator<<...".

Definition too_many_message : string :=
  "Error! Too many arguments have been passed to comma initializer (see operator<<, vector3d_simd)...".

(** [++been_inserted] on a [uint8_t]. *)
Definition incr_uint8 (b : Z) : Z := (b + 1) mod 256.

(** One step of an insertion expression [v << a, b, ...]: the leading
    [<< a] or a continuation [, a]. *)
Inductive insertion := Shl (value : spec_float) | Comma (value : spec_float).

(* ================================================================= *)
(** ** Formatted input

    [std::istream] as the sequence of whitespace-delimited tokens still
    to be read and the stream's fail bit.  A token is a number of the
    element type or text that is no number. *)

Module Istream.

Inductive token := Num (a : spec_float) | Junk.

Record istream := mkStream { tokens : list token; failbit : bool }.

(** [input >> a] for an arithmetic lvalue holding [old]: a stream
    that already failed, or is at its end, leaves the lvalue alone;
    text that is no number stores zero and sets the fail bit. *)
Definition extract (input : istream) (old : spec_float) : istream * spec_float :=
  if failbit input then (input, old)
  else match tokens input with
       | [] => (mkStream [] true, old)
       | Num a :: rest => (mkStream rest false, a)
       | Junk :: rest => (mkStream (Junk :: rest) true, Elt.zero)
       end.

End Istream.

(* ================================================================= *)
(** ** [Vector3_reg.h]: class [vector3_reg] *)

Module Vector3_reg.
Import Method.
Local Open Scope method_scope.

(** [struct { elt_type x, y, z; }] and [uint8_t been_inserted]. *)
Record vector3_reg := mk { x : spec_float; y : spec_float; z : spec_float;
                           been_inserted : Z }.

Definition set_x (v : vector3_reg) (a : spec_float) := mk a (y v) (z v) (been_inserted v).
Definition set_y (v : vector3_reg) (a : spec_float) := mk (x v) a (z v) (been_inserted v).
Definition set_z (v : vector3_reg) (a : spec_float) := mk (x v) (y v) a (been_inserted v).
Definition set_been_inserted (v : vector3_reg) (b : Z) := mk (x v) (y v) (z v) b.

Section Class.
(** [elt_type]: [float] when [USE_FLOAT_VECTOR] is defined, else [double]. *)
Variable fmt : Elt.format.

Local Infix "+." := (Elt.add fmt) (at level 50, left associativity).
Local Infix "-." := (Elt.sub fmt) (at level 50, left associativity).
Local Infix "*." := (Elt.mul fmt) (at level 40, left associativity).
Local Infix "/." := (Elt.div fmt) (at level 40, left associativity).

(** [vector3_reg()] *)
Definition ctor_default : vector3_reg := mk Elt.zero Elt.zero Elt.zero 0.

(** [vector3_reg(_x, _y, _z)] *)
Definition ctor (_x _y _z : spec_float) : vector3_reg := mk _x _y _z 0.

(** [vector3_reg(const vector3_reg &other)] *)
Definition ctor_copy (other : vector3_reg) : vector3_reg :=
  mk (x other) (y other) (z other) 0.

Definition op_add (v other : vector3_reg) : vector3_reg :=
  ctor (x v +. x other) (y v +. y other) (z v +. z other).
Definition op_sub (v other : vector3_reg) : vector3_reg :=
  ctor (x v -. x other) (y v -. y other) (z v -. z other).
Definition op_mul (v other : vector3_reg) : vector3_reg :=
  ctor (x v *. x other) (y v *. y other) (z v *. z other).
Definition op_div (v other : vector3_reg) : vector3_reg :=
  ctor (x v /. x other) (y v /. y other) (z v /. z other).

Definition op_add_scalar (v : vector3_reg) (value : spec_float) : vector3_reg :=
  ctor (x v +. value) (y v +. value) (z v +. value).
Definition op_sub_scalar (v : vector3_reg) (value : spec_float) : vector3_reg :=
  ctor (x v -. value) (y v -. value) (z v -. value).
Definition op_mul_scalar (v : vector3_reg) (value : spec_float) : vector3_reg :=
  ctor (x v *. value) (y v *. value) (z v *. value).
Definition op_div_scalar (v : vector3_reg) (value : spec_float) : vector3_reg :=
  ctor (x v /. value) (y v /. value) (z v /. value).

(** [void set(_x, _y, _z)] *)
Definition set (_x _y _z : spec_float) : M vector3_reg unit :=
  update (fun v => set_x v _x) ;;
  update (fun v => set_y v _y) ;;
  update (fun v => set_z v _z).

Definition cross (v other : vector3_reg) : vector3_reg :=
  ctor (y v *. z other -. z v *. y other)
       (z v *. x other -. x v *. z other)
       (x v *. y other -. y v *. x other).

Definition dot (v other : vector3_reg) : spec_float :=
  x v *. x other +. y v *. y other +. z v *. z other.

Definition length (v : vector3_reg) : spec_float :=
  Elt.sqrt fmt (x v *. x v +. y v *. y v +. z v *. z v).

(** [normalize() const]: the quotients are formed in a local [v]. *)
Definition normalize : M vector3_reg vector3_reg :=
  t <- self ;;
  let v := ctor (x t) (y t) (z t) in
  let abs := length t in
  let v := set_x v (x v /. abs) in
  let v := set_y v (y v /. abs) in
  let v := set_z v (z v /. abs) in
  ret v.

(** [operator>> (std::istream &input, vector3_reg &v)] *)
Definition op_extract (input : Istream.istream) (v : vector3_reg)
  : Istream.istream * vector3_reg :=
  let (input, a) := Istream.extract input (x v) in
  let v := set_x v a in
  let (input, a) := Istream.extract input (y v) in
  let v := set_y v a in
  let (input, a) := Istream.extract input (z v) in
  let v := set_z v a in
  (input, v).

(** [operator<< (const elt_type &value)] *)
Definition op_shl (value : spec_float) : M vector3_reg unit :=
  update (fun v => set_x v value) ;;
  update (fun v => set_been_inserted v 1).

(** [operator, (const elt_type &value)] *)
Definition op_comma (value : spec_float) : M vector3_reg unit :=
  t <- self ;;
  if been_inserted t =? 0 then
    report bad_use_message
  else if been_inserted t =? 1 then
    update (fun v => set_y v value) ;;
    update (fun v => set_been_inserted v (incr_uint8 (been_inserted v)))
  else if been_inserted t =? 2 then
    update (fun v => set_z v value) ;;
    update (fun v => set_been_inserted v (incr_uint8 (been_inserted v)))
  else
    report too_many_message.

(** The statement [v << a, b, c;]: [<<] binds tighter than the
    comma, and both return [*this]. *)
Definition chain (a b c : spec_float) : M vector3_reg unit :=
  op_shl a ;; op_comma b ;; op_comma c.

(** [operator+= (const vector3_reg &other)] and its siblings: the three
    members are updated one after the other. *)
Definition op_add_assign (other : vector3_reg) : M vector3_reg unit :=
  update (fun v => set_x v (x v +. x other)) ;;
  update (fun v => set_y v (y v +. y other)) ;;
  update (fun v => set_z v (z v +. z other)).
Definition op_sub_assign (other : vector3_reg) : M vector3_reg unit :=
  update (fun v => set_x v (x v -. x other)) ;;
  update (fun v => set_y v (y v -. y other)) ;;
  update (fun v => set_z v (z v -. z other)).
Definition op_mul_assign (other : vector3_reg) : M vector3_reg unit :=
  update (fun v => set_x v (x v *. x other)) ;;
  update (fun v => set_y v (y v *. y other)) ;;
  update (fun v => set_z v (z v *. z other)).
Definition op_div_assign (other : vector3_reg) : M vector3_reg unit :=
  update (fun v => set_x v (x v /. x other)) ;;
  update (fun v => set_y v (y v /. y other)) ;;
  update (fun v => set_z v (z v /. z other)).

(** [operator+= (elt_type value)] and its siblings. *)
Definition op_add_assign_scalar (value : spec_float) : M vector3_reg unit :=
  update (fun v => set_x v (x v +. value)) ;;
  update (fun v => set_y v (y v +. value)) ;;
  update (fun v => set_z v (z v +. value)).
Definition op_sub_assign_scalar (value : spec_float) : M vector3_reg unit :=
  update (fun v => set_x v (x v -. value)) ;;
  update (fun v => set_y v (y v -. value)) ;;
  update (fun v => set_z v (z v -. value)).
Definition op_mul_assign_scalar (value : spec_float) : M vector3_reg unit :=
  update (fun v => set_x v (x v *. value)) ;;
  update (fun v => set_y v (y v *. value)) ;;
  update (fun v => set_z v (z v *. value)).
Definition op_div_assign_scalar (value : spec_float) : M vector3_reg unit :=
  update (fun v => set_x v (x v /. value)) ;;
  update (fun v => set_y v (y v /. value)) ;;
  update (fun v => set_z v (z v /. value)).

(** [operator= (elt_type value)] *)
Definition op_assign_scalar (value : spec_float) : M vector3_reg unit :=
  update (fun v => set_x v value) ;;
  update (fun v => set_y v value) ;;
  update (fun v => set_z v value).

(** [operator= (const vector3_reg &other)] *)
Definition op_assign (other : vector3_reg) : M vector3_reg unit :=
  update (fun v => set_x v (x other)) ;;
  update (fun v => set_y v (y other)) ;;
  update (fun v => set_z v (z other)).

(** [friend operator* (elt_type value, const vector3_reg &rhs)] *)
Definition op_scalar_mul (value : spec_float) (rhs : vector3_reg) : vector3_reg :=
  op_mul_scalar rhs value.

(** [rlength() const]: [1./length()] divides the [double] literal by
    the length converted to [double]; the quotient is converted to
    [elt_type] on return. *)
Definition rlength (v : vector3_reg) : spec_float :=
  Elt.cast Elt.binary64 fmt
    (Elt.div Elt.binary64 (Elt.one Elt.binary64)
       (Elt.cast fmt Elt.binary64 (length v))).

(** The three components a caller reads. *)
Definition xyz (v : vector3_reg) : spec_float * spec_float * spec_float :=
  (x v, y v, z v).

(** An insertion expression, step by step from the left. *)
Fixpoint insert_all (steps : list insertion) : M vector3_reg unit :=
  match steps with
  | [] => ret tt
  | Shl value :: rest => op_shl value ;; insert_all rest
  | Comma value :: rest => op_comma value ;; insert_all rest
  end.
End Class.

End Vector3_reg.

(* ================================================================= *)
(** ** [Vector3f_simd.h]: class [vector3f_simd] *)

Module Vector3f_simd.
Import Method Simd.
Local Open Scope method_scope.

(** The anonymous union overlays [struct { float x, y, z; }] on the
    three low lanes of [__m128 mmvalue]; [been_inserted] follows it. *)
Record vector3f_simd := mk { mmvalue : __m128; been_inserted : Z }.

Definition x (v : vector3f_simd) : spec_float := lane0 (mmvalue v).
Definition y (v : vector3f_simd) : spec_float := lane1 (mmvalue v).
Definition z (v : vector3f_simd) : spec_float := lane2 (mmvalue v).

(** The fourth lane, which no named member overlays. *)
Definition padding (v : vector3f_simd) : spec_float := lane3 (mmvalue v).

Definition set_mmvalue (v : vector3f_simd) (r : __m128) := mk r (been_inserted v).
Definition set_been_inserted (v : vector3f_simd) (b : Z) := mk (mmvalue v) b.

(** Stores through the union members [x], [y], [z]. *)
Definition set_x (v : vector3f_simd) (a : spec_float) :=
  set_mmvalue v (mk4 a (lane1 (mmvalue v)) (lane2 (mmvalue v)) (lane3 (mmvalue v))).
Definition set_y (v : vector3f_simd) (a : spec_float) :=
  set_mmvalue v (mk4 (lane0 (mmvalue v)) a (lane2 (mmvalue v)) (lane3 (mmvalue v))).
Definition set_z (v : vector3f_simd) (a : spec_float) :=
  set_mmvalue v (mk4 (lane0 (mmvalue v)) (lane1 (mmvalue v)) a (lane3 (mmvalue v))).

(** [vector3f_simd()] *)
Definition ctor_default : vector3f_simd := mk _mm_setzero_ps 0.

(** [vector3f_simd(x, y, z)] *)
Definition ctor (x y z : spec_float) : vector3f_simd :=
  mk (_mm_set_ps Elt.zero z y x) 0.

(** [vector3f_simd(__m128 other)]; also the conversion applied where
    a member function returns a register as a [vector3f_simd]. *)
Definition ctor_reg (other : __m128) : vector3f_simd := mk other 0.

(** Copy construction.  The class declares no copy constructor, so the
    implicitly-defined one is used: it copies the union and
    [been_inserted] member by member. *)
Definition ctor_copy (other : vector3f_simd) : vector3f_simd :=
  mk (mmvalue other) (been_inserted other).

Definition op_add (v other : vector3f_simd) : vector3f_simd :=
  ctor_reg (_mm_add_ps (mmvalue v) (mmvalue other)).
Definition op_sub (v other : vector3f_simd) : vector3f_simd :=
  ctor_reg (_mm_sub_ps (mmvalue v) (mmvalue other)).
Definition op_mul (v other : vector3f_simd) : vector3f_simd :=
  ctor_reg (_mm_mul_ps (mmvalue v) (mmvalue other)).
Definition op_div (v other : vector3f_simd) : vector3f_simd :=
  ctor_reg (_mm_div_ps (mmvalue v) (mmvalue other)).

(** [operator/= (const vector3f_simd &other)] *)
Definition op_div_assign (other : vector3f_simd) : M vector3f_simd unit :=
  update (fun v => set_mmvalue v (_mm_div_ps (mmvalue v) (mmvalue other))).

Definition op_add_scalar (v : vector3f_simd) (value : spec_float) : vector3f_simd :=
  ctor_reg (_mm_add_ps (mmvalue v) (_mm_set1_ps value)).
Definition op_sub_scalar (v : vector3f_simd) (value : spec_float) : vector3f_simd :=
  ctor_reg (_mm_sub_ps (mmvalue v) (_mm_set1_ps value)).
Definition op_mul_scalar (v : vector3f_simd) (value : spec_float) : vector3f_simd :=
  ctor_reg (_mm_mul_ps (mmvalue v) (_mm_set1_ps value)).
Definition op_div_scalar (v : vector3f_simd) (value : spec_float) : vector3f_simd :=
  ctor_reg (_mm_div_ps (mmvalue v) (_mm_set1_ps value)).

(** [operator/= (elt_type value)] *)
Definition op_div_assign_scalar (value : spec_float) : M vector3f_simd unit :=
  update (fun v => set_mmvalue v (_mm_div_ps (mmvalue v) (_mm_set1_ps value))).

(** [void set(x, y, z)] *)
Definition set (x y z : spec_float) : M vector3f_simd unit :=
  update (fun v => set_mmvalue v (_mm_set_ps Elt.zero z y x)).

Definition cross (v other : vector3f_simd) : vector3f_simd :=
  ctor_reg
    (_mm_sub_ps
       (_mm_mul_ps (_mm_shuffle_ps (mmvalue v) (mmvalue v) (_MM_SHUFFLE 3 0 2 1))
                   (_mm_shuffle_ps (mmvalue other) (mmvalue other) (_MM_SHUFFLE 3 1 0 2)))
       (_mm_mul_ps (_mm_shuffle_ps (mmvalue v) (mmvalue v) (_MM_SHUFFLE 3 1 0 2))
                   (_mm_shuffle_ps (mmvalue other) (mmvalue other) (_MM_SHUFFLE 3 0 2 1)))).

Definition dot (v other : vector3f_simd) : spec_float :=
  _mm_cvtss_f32 (_mm_dp_ps (mmvalue v) (mmvalue other) 0x71).

Definition length (v : vector3f_simd) : spec_float :=
  _mm_cvtss_f32 (_mm_sqrt_ss (_mm_dp_ps (mmvalue v) (mmvalue v) 0x71)).

Section Approx.
(** The processor's reciprocal square root approximation. *)
Variable rsqrt : spec_float -> spec_float.

Definition rlength (v : vector3f_simd) : spec_float :=
  _mm_cvtss_f32 (_mm_rsqrt_ss rsqrt (_mm_dp_ps (mmvalue v) (mmvalue v) 0x71)).

(** [normalize() const] *)
Definition normalize : M vector3f_simd vector3f_simd :=
  t <- self ;;
  ret (ctor_reg (_mm_mul_ps (mmvalue t)
                   (_mm_rsqrt_ps rsqrt (_mm_dp_ps (mmvalue t) (mmvalue t) 0x7F)))).
End Approx.

(** [operator>> (std::istream &input, vector3f_simd &v)] *)
Definition op_extract (input : Istream.istream) (v : vector3f_simd)
  : Istream.istream * vector3f_simd :=
  let (input, a) := Istream.extract input (x v) in
  let v := set_x v a in
  let (input, a) := Istream.extract input (y v) in
  let v := set_y v a in
  let (input, a) := Istream.extract input (z v) in
  let v := set_z v a in
  (input, v).

(** [operator<< (const elt_type &value)] *)
Definition op_shl (value : spec_float) : M vector3f_simd unit :=
  update (fun v => set_x v value) ;;
  update (fun v => set_been_inserted v 1).

(** [operator, (const elt_type &value)] *)
Definition op_comma (value : spec_float) : M vector3f_simd unit :=
  t <- self ;;
  if been_inserted t =? 0 then
    report bad_use_message
  else if been_inserted t =? 1 then
    update (fun v => set_y v value) ;;
    update (fun v => set_been_inserted v (incr_uint8 (been_inserted v)))
  else if been_inserted t =? 2 then
    update (fun v => set_z v value) ;;
    update (fun v => set_been_inserted v (incr_uint8 (been_inserted v)))
  else
    report too_many_message.

(** The statement [v << a, b, c;]. *)
Definition chain (a b c : spec_float) : M vector3f_simd unit :=
  op_shl a ;; op_comma b ;; op_comma c.


(** [operator+=], [operator-=], [operator*=] with a vector. *)
Definition op_add_assign (other : vector3f_simd) : M vector3f_simd unit :=
  update (fun v => set_mmvalue v (_mm_add_ps (mmvalue v) (mmvalue other))).
Definition op_sub_assign (other : vector3f_simd) : M vector3f_simd unit :=
  update (fun v => set_mmvalue v (_mm_sub_ps (mmvalue v) (mmvalue other))).
Definition op_mul_assign (other : vector3f_simd) : M vector3f_simd unit :=
  update (fun v => set_mmvalue v (_mm_mul_ps (mmvalue v) (mmvalue other))).

(** [operator+=], [operator-=], [operator*=] with a scalar. *)
Definition op_add_assign_scalar (value : spec_float) : M vector3f_simd unit :=
  update (fun v => set_mmvalue v (_mm_add_ps (mmvalue v) (_mm_set1_ps value))).
Definition op_sub_assign_scalar (value : spec_float) : M vector3f_simd unit :=
  update (fun v => set_mmvalue v (_mm_sub_ps (mmvalue v) (_mm_set1_ps value))).
Definition op_mul_assign_scalar (value : spec_float) : M vector3f_simd unit :=
  update (fun v => set_mmvalue v (_mm_mul_ps (mmvalue v) (_mm_set1_ps value))).

(** [operator= (elt_type value)] *)
Definition op_assign_scalar (value : spec_float) : M vector3f_simd unit :=
  update (fun v => set_mmvalue v (_mm_set_ps Elt.zero value value value)).

(** [operator= (const vector3f_simd &other)] *)
Definition op_assign (other : vector3f_simd) : M vector3f_simd unit :=
  update (fun v => set_mmvalue v (mmvalue other)).

(** [friend operator* (elt_type value, const vector3f_simd &rhs)] *)
Definition op_scalar_mul (value : spec_float) (rhs : vector3f_simd) : vector3f_simd :=
  op_mul_scalar rhs value.

(** The three components a caller reads. *)
Definition xyz (v : vector3f_simd) : spec_float * spec_float * spec_float :=
  (x v, y v, z v).

(** An insertion expression, step by step from the left. *)
Fixpoint insert_all (steps : list insertion) : M vector3f_simd unit :=
  match steps with
  | [] => ret tt
  | Shl value :: rest => op_shl value ;; insert_all rest
  | Comma value :: rest => op_comma value ;; insert_all rest
  end.

End Vector3f_simd.

(* ================================================================= *)
(** ** [Vector3d_simd.h]: class [vector3d_simd] *)

Module Vector3d_simd.
Import Method Simd.
Local Open Scope method_scope.

(** The anonymous union overlays [struct { double x, y, z; }] on the
    three low lanes of [__m256d mmvalue]. *)
Record vector3d_simd := mk { mmvalue : __m256d; been_inserted : Z }.

Definition x (v : vector3d_simd) : spec_float := lane0 (mmvalue v).
Definition y (v : vector3d_simd) : spec_float := lane1 (mmvalue v).
Definition z (v : vector3d_simd) : spec_float := lane2 (mmvalue v).
Definition padding (v : vector3d_simd) : spec_float := lane3 (mmvalue v).

Definition set_mmvalue (v : vector3d_simd) (r : __m256d) := mk r (been_inserted v).
Definition set_been_inserted (v : vector3d_simd) (b : Z) := mk (mmvalue v) b.

Definition set_x (v : vector3d_simd) (a : spec_float) :=
  set_mmvalue v (mk4 a (lane1 (mmvalue v)) (lane2 (mmvalue v)) (lane3 (mmvalue v))).
Definition set_y (v : vector3d_simd) (a : spec_float) :=
  set_mmvalue v (mk4 (lane0 (mmvalue v)) a (lane2 (mmvalue v)) (lane3 (mmvalue v))).
Definition set_z (v : vector3d_simd) (a : spec_float) :=
  set_mmvalue v (mk4 (lane0 (mmvalue v)) (lane1 (mmvalue v)) a (lane3 (mmvalue v))).

(** The literal [1.0] of [r[3] = 1.0] and of [1./length()]. *)
Definition one : spec_float := Elt.one Elt.binary64.

(** [vector3d_simd()] *)
Definition ctor_default : vector3d_simd := mk _mm256_setzero_pd 0.

(** [vector3d_simd(x, y, z)] *)
Definition ctor (x y z : spec_float) : vector3d_simd :=
  mk (_mm256_set_pd Elt.zero z y x) 0.

(** [vector3d_simd(__m256d other)]; also the conversion applied where
    a member function returns a register as a [vector3d_simd]. *)
Definition ctor_reg (other : __m256d) : vector3d_simd := mk other 0.

(** Copy construction.  The class declares no copy constructor, so the
    implicitly-defined one is used: it copies the union and
    [been_inserted] member by member. *)
Definition ctor_copy (other : vector3d_simd) : vector3d_simd :=
  mk (mmvalue other) (been_inserted other).

Definition op_add (v other : vector3d_simd) : vector3d_simd :=
  ctor_reg (_mm256_add_pd (mmvalue v) (mmvalue other)).
Definition op_sub (v other : vector3d_simd) : vector3d_simd :=
  ctor_reg (_mm256_sub_pd (mmvalue v) (mmvalue other)).
Definition op_mul (v other : vector3d_simd) : vector3d_simd :=
  ctor_reg (_mm256_mul_pd (mmvalue v) (mmvalue other)).

Definition op_div (v other : vector3d_simd) : vector3d_simd :=
  let r := mmvalue other in
  let r := set_lane3 r one in
  ctor_reg (_mm256_div_pd (mmvalue v) r).

(** [operator+=], [operator-=], [operator*=] with a vector. *)
Definition op_add_assign (other : vector3d_simd) : M vector3d_simd unit :=
  update (fun v => set_mmvalue v (_mm256_add_pd (mmvalue v) (mmvalue other))).
Definition op_sub_assign (other : vector3d_simd) : M vector3d_simd unit :=
  update (fun v => set_mmvalue v (_mm256_sub_pd (mmvalue v) (mmvalue other))).
Definition op_mul_assign (other : vector3d_simd) : M vector3d_simd unit :=
  update (fun v => set_mmvalue v (_mm256_mul_pd (mmvalue v) (mmvalue other))).

(** [operator/= (const vector3d_simd &other)] *)
Definition op_div_assign (other : vector3d_simd) : M vector3d_simd unit :=
  let r := mmvalue other in
  let r := set_lane3 r one in
  update (fun v => set_mmvalue v (_mm256_div_pd (mmvalue v) r)).

Definition op_add_scalar (v : vector3d_simd) (value : spec_float) : vector3d_simd :=
  ctor_reg (_mm256_add_pd (mmvalue v) (_mm256_set_pd Elt.zero value value value)).
Definition op_sub_scalar (v : vector3d_simd) (value : spec_float) : vector3d_simd :=
  ctor_reg (_mm256_sub_pd (mmvalue v) (_mm256_set_pd Elt.zero value value value)).
Definition op_mul_scalar (v : vector3d_simd) (value : spec_float) : vector3d_simd :=
  ctor_reg (_mm256_mul_pd (mmvalue v) (_mm256_set_pd Elt.zero value value value)).
Definition op_div_scalar (v : vector3d_simd) (value : spec_float) : vector3d_simd :=
  ctor_reg (_mm256_div_pd (mmvalue v) (_mm256_set_pd one value value value)).

(** [operator+=], [operator-=], [operator*=] with a scalar. *)
Definition op_add_assign_scalar (value : spec_float) : M vector3d_simd unit :=
  update (fun v => set_mmvalue v
                     (_mm256_add_pd (mmvalue v) (_mm256_set_pd Elt.zero value value value))).
Definition op_sub_assign_scalar (value : spec_float) : M vector3d_simd unit :=
  update (fun v => set_mmvalue v
                     (_mm256_sub_pd (mmvalue v) (_mm256_set_pd Elt.zero value value value))).
Definition op_mul_assign_scalar (value : spec_float) : M vector3d_simd unit :=
  update (fun v => set_mmvalue v
                     (_mm256_mul_pd (mmvalue v) (_mm256_set_pd Elt.zero value value value))).

(** [operator/= (elt_type value)] *)
Definition op_div_assign_scalar (value : spec_float) : M vector3d_simd unit :=
  update (fun v => set_mmvalue v
                     (_mm256_div_pd (mmvalue v) (_mm256_set_pd one value value value))).

(** [void set(x, y, z)] *)
Definition set (x y z : spec_float) : M vector3d_simd unit :=
  update (fun v => set_mmvalue v (_mm256_set_pd Elt.zero z y x)).

Definition cross (v other : vector3d_simd) : vector3d_simd :=
  ctor_reg
    (_mm256_sub_pd
       (_mm256_mul_pd (_mm256_permute4x64_pd (mmvalue v) (_MM_SHUFFLE 3 0 2 1))
                      (_mm256_permute4x64_pd (mmvalue other) (_MM_SHUFFLE 3 1 0 2)))
       (_mm256_mul_pd (_mm256_permute4x64_pd (mmvalue v) (_MM_SHUFFLE 3 1 0 2))
                      (_mm256_permute4x64_pd (mmvalue other) (_MM_SHUFFLE 3 0 2 1)))).

(** [dot(const vector3d_simd &other) const]: the body multiplies
    [mmvalue] by [mmvalue]; [other] does not occur in it. *)
Definition dot (v other : vector3d_simd) : spec_float :=
  let r1 := _mm256_mul_pd (mmvalue v) (mmvalue v) in
  let r2 := _mm256_hadd_pd r1 r1 in
  _mm_cvtsd_f64 (_mm_add_pd (_mm256_extractf128_pd r2 1)
                            (_mm256_castpd256_pd128 r2)).

Definition length (v : vector3d_simd) : spec_float :=
  let r1 := _mm256_mul_pd (mmvalue v) (mmvalue v) in
  let r2 := _mm256_hadd_pd r1 r1 in
  _mm_cvtsd_f64 (_mm_sqrt_pd (_mm_add_pd (_mm256_extractf128_pd r2 1)
                                         (_mm256_castpd256_pd128 r2))).

Definition rlength (v : vector3d_simd) : spec_float :=
  Elt.div Elt.binary64 one (length v).

(** [normalize() const] *)
Definition normalize : M vector3d_simd vector3d_simd :=
  t <- self ;;
  let r := _mm256_set1_pd (rlength t) in
  ret (ctor_reg (_mm256_mul_pd (mmvalue t) r)).

(** [operator>> (std::istream &input, vector3d_simd &v)] *)
Definition op_extract (input : Istream.istream) (v : vector3d_simd)
  : Istream.istream * vector3d_simd :=
  let (input, a) := Istream.extract input (x v) in
  let v := set_x v a in
  let (input, a) := Istream.extract input (y v) in
  let v := set_y v a in
  let (input, a) := Istream.extract input (z v) in
  let v := set_z v a in
  (input, v).

(** [operator<< (const elt_type &value)] *)
Definition op_shl (value : spec_float) : M vector3d_simd unit :=
  update (fun v => set_x v value) ;;
  update (fun v => set_been_inserted v 1).

(** [operator, (const elt_type &value)] *)
Definition op_comma (value : spec_float) : M vector3d_simd unit :=
  t <- self ;;
  if been_inserted t =? 0 then
    report bad_use_message
  else if been_inserted t =? 1 then
    update (fun v => set_y v value) ;;
    update (fun v => set_been_inserted v (incr_uint8 (been_inserted v)))
  else if been_inserted t =? 2 then
    update (fun v => set_z v value) ;;
    update (fun v => set_been_inserted v (incr_uint8 (been_inserted v)))
  else
    report too_many_message.

(** The statement [v << a, b, c;]. *)
Definition chain (a b c : spec_float) : M vector3d_simd unit :=
  op_shl a ;; op_comma b ;; op_comma c.

(** The vectors obtained from the default and three-argument
    constructors by copying, by the arithmetic operators and their
    assignment forms (with a vector or with a scalar) and by [cross]. *)
Inductive built : vector3d_simd -> Prop :=
  | built_default : built ctor_default
  | built_ctor (x y z : spec_float) : built (ctor x y z)
  | built_copy v : built v -> built (ctor_copy v)
  | built_add a b : built a -> built b -> built (op_add a b)
  | built_sub a b : built a -> built b -> built (op_sub a b)
  | built_mul a b : built a -> built b -> built (op_mul a b)
  | built_div a b : built a -> built b -> built (op_div a b)
  | built_add_scalar a s : built a -> built (op_add_scalar a s)
  | built_sub_scalar a s : built a -> built (op_sub_scalar a s)
  | built_mul_scalar a s : built a -> built (op_mul_scalar a s)
  | built_div_scalar a s : built a -> built (op_div_scalar a s)
  | built_cross a b : built a -> built b -> built (cross a b)
| built_add_assign a b : built a -> built b -> built (after (op_add_assign b) a)
| built_sub_assign a b : built a -> built b -> built (after (op_sub_assign b) a)
| built_mul_assign a b : built a -> built b -> built (after (op_mul_assign b) a)
| built_div_assign a b : built a -> built b -> built (after (op_div_assign b) a)
| built_add_assign_scalar a s : built a -> built (after (op_add_assign_scalar s) a)
| built_sub_assign_scalar a s : built a -> built (after (op_sub_assign_scalar s) a)
| built_mul_assign_scalar a s : built a -> built (after (op_mul_assign_scalar s) a)
| built_div_assign_scalar a s : built a -> built (after (op_div_assign_scalar s) a).


(** [operator= (elt_type value)] *)
Definition op_assign_scalar (value : spec_float) : M vector3d_simd unit :=
  update (fun v => set_mmvalue v (_mm256_set_pd Elt.zero value value value)).

(** [operator= (const vector3d_simd &other)] *)
Definition op_assign (other : vector3d_simd) : M vector3d_simd unit :=
  update (fun v => set_mmvalue v (mmvalue other)).

(** [friend operator* (elt_type value, const vector3d_simd &rhs)] *)
Definition op_scalar_mul (value : spec_float) (rhs : vector3d_simd) : vector3d_simd :=
  op_mul_scalar rhs value.

(** The three components a caller reads. *)
Definition xyz (v : vector3d_simd) : spec_float * spec_float * spec_float :=
  (x v, y v, z v).

(** An insertion expression, step by step from the left. *)
Fixpoint insert_all (steps : list insertion) : M vector3d_simd unit :=
  match steps with
  | [] => ret tt
  | Shl value :: rest => op_shl value ;; insert_all rest
  | Comma value :: rest => op_comma value ;; insert_all rest
  end.

End Vector3d_simd.

(* ================================================================= *)
(** ** Facts of IEEE arithmetic used below *)

Section FloatFacts.
Variables prec emax : Z.

(** Rounding keeps the sign it is given, also when it underflows to zero. *)
Lemma binary_round_aux_not_negative_zero (m e : Z) (l : location) :
  binary_round_aux prec emax false m e l <> S754_zero true.
Proof.
  unfold binary_round_aux.
  destruct (shr_fexp prec emax m e l) as [mrs' e'].
  destruct (shr_fexp prec emax _ e' loc_Exact) as [mrs'' e''].
  destruct (shr_m mrs''); try discriminate.
  destruct (Z.leb e'' (Z.sub emax prec)); discriminate.
Qed.

(** A square is never the negative zero. *)
Lemma SFmul_self_not_negative_zero (a : spec_float) :
  SFmul prec emax a a <> S754_zero true.
Proof.
  destruct a as [s | s | | s m e]; simpl; try discriminate.
  - destruct s; discriminate.
  - replace (xorb s s) with false by (destruct s; reflexivity).
    apply binary_round_aux_not_negative_zero.
Qed.

(** Adding the positive zero changes nothing but the negative zero. *)
Lemma SFadd_zero_r (a : spec_float) :
  a <> S754_zero true -> SFadd prec emax a (S754_zero false) = a.
Proof.
  destruct a as [[|] | s | | s m e]; simpl; intro H; try reflexivity.
  now elim H.
Qed.

Lemma SFadd_square_zero (a : spec_float) :
  SFadd prec emax (SFmul prec emax a a) (S754_zero false) = SFmul prec emax a a.
Proof. apply SFadd_zero_r, SFmul_self_not_negative_zero. Qed.
End FloatFacts.

(** A square plus the literal zero is that square. *)
Lemma add_square_zero (fmt : Elt.format) (a : spec_float) :
  Elt.add fmt (Elt.mul fmt a a) Elt.zero = Elt.mul fmt a a.
Proof. apply SFadd_square_zero. Qed.

(* ================================================================= *)
(** ** Dot product *)

(** The scalar class adds the three products from left to right. *)
Lemma vector3_reg_dot_value (fmt : Elt.format) (v o : Vector3_reg.vector3_reg) :
  Vector3_reg.dot fmt v o =
  Elt.add fmt
    (Elt.add fmt (Elt.mul fmt (Vector3_reg.x v) (Vector3_reg.x o))
                 (Elt.mul fmt (Vector3_reg.y v) (Vector3_reg.y o)))
    (Elt.mul fmt (Vector3_reg.z v) (Vector3_reg.z o)).
Proof. reflexivity. Qed.

(** Mask [0x71] keeps the products of lanes 0, 1 and 2 and replaces the
    fourth by zero, whatever the padding lanes hold. *)
Lemma vector3f_simd_dot_value (v o : Vector3f_simd.vector3f_simd) :
  Vector3f_simd.dot v o =
  Elt.add Elt.binary32
    (Elt.add Elt.binary32 Elt.zero
       (Elt.mul Elt.binary32 (Vector3f_simd.z v) (Vector3f_simd.z o)))
    (Elt.add Elt.binary32
       (Elt.mul Elt.binary32 (Vector3f_simd.y v) (Vector3f_simd.y o))
       (Elt.mul Elt.binary32 (Vector3f_simd.x v) (Vector3f_simd.x o))).
Proof. reflexivity. Qed.

(** The wide-lane [dot] is the sum of the four squared lanes of the receiver. *)
Lemma vector3d_simd_dot_value (v o : Vector3d_simd.vector3d_simd) :
  Vector3d_simd.dot v o =
  Elt.add Elt.binary64
    (Elt.add Elt.binary64
       (Elt.mul Elt.binary64 (Vector3d_simd.z v) (Vector3d_simd.z v))
       (Elt.mul Elt.binary64 (Vector3d_simd.padding v) (Vector3d_simd.padding v)))
    (Elt.add Elt.binary64
       (Elt.mul Elt.binary64 (Vector3d_simd.x v) (Vector3d_simd.x v))
       (Elt.mul Elt.binary64 (Vector3d_simd.y v) (Vector3d_simd.y v))).
Proof. reflexivity. Qed.

Lemma vector3d_simd_length_value (v : Vector3d_simd.vector3d_simd) :
  Vector3d_simd.length v =
  Elt.sqrt Elt.binary64
    (Elt.add Elt.binary64
       (Elt.add Elt.binary64
          (Elt.mul Elt.binary64 (Vector3d_simd.z v) (Vector3d_simd.z v))
          (Elt.mul Elt.binary64 (Vector3d_simd.padding v) (Vector3d_simd.padding v)))
       (Elt.add Elt.binary64
          (Elt.mul Elt.binary64 (Vector3d_simd.x v) (Vector3d_simd.x v))
          (Elt.mul Elt.binary64 (Vector3d_simd.y v) (Vector3d_simd.y v)))).
Proof. reflexivity. Qed.

(** C1 (fails in [vector3d_simd::dot]).  The wide-lane [dot] never
    reads its argument: for v = (1,0,0) and o = (0,1,0) it returns 1,
    the dot product of v with itself, where x*o.x + y*o.y + z*o.z is 0;
    and its result is the same for any two arguments. *)
Theorem vector3d_simd_dot_ignores_argument :
  let v := Vector3d_simd.ctor (f64 1) (f64 0) (f64 0) in
  let o := Vector3d_simd.ctor (f64 0) (f64 1) (f64 0) in
  Vector3d_simd.dot v o = f64 1 /\
  Elt.add Elt.binary64
    (Elt.add Elt.binary64
       (Elt.mul Elt.binary64 (Vector3d_simd.x v) (Vector3d_simd.x o))
       (Elt.mul Elt.binary64 (Vector3d_simd.y v) (Vector3d_simd.y o)))
    (Elt.mul Elt.binary64 (Vector3d_simd.z v) (Vector3d_simd.z o)) = f64 0 /\
  Vector3_reg.dot Elt.binary64
    (Vector3_reg.ctor (f64 1) (f64 0) (f64 0))
    (Vector3_reg.ctor (f64 0) (f64 1) (f64 0)) = f64 0 /\
  forall w o1 o2, Vector3d_simd.dot w o1 = Vector3d_simd.dot w o2.
Proof.
  repeat split; vm_compute; reflexivity.
Qed.

(* ================================================================= *)
(** ** Cross product *)

(** The two immediates of the shuffles: rotate the three low lanes by
    one and by two places, leave the fourth in place. *)
Lemma shuffle_3021 (a : Simd.vec4) :
  Simd._mm_shuffle_ps a a (Simd._MM_SHUFFLE 3 0 2 1) =
  Simd.mk4 (Simd.lane1 a) (Simd.lane2 a) (Simd.lane0 a) (Simd.lane3 a).
Proof. reflexivity. Qed.

Lemma shuffle_3102 (a : Simd.vec4) :
  Simd._mm_shuffle_ps a a (Simd._MM_SHUFFLE 3 1 0 2) =
  Simd.mk4 (Simd.lane2 a) (Simd.lane0 a) (Simd.lane1 a) (Simd.lane3 a).
Proof. reflexivity. Qed.

Lemma permute_3021 (a : Simd.vec4) :
  Simd._mm256_permute4x64_pd a (Simd._MM_SHUFFLE 3 0 2 1) =
  Simd.mk4 (Simd.lane1 a) (Simd.lane2 a) (Simd.lane0 a) (Simd.lane3 a).
Proof. reflexivity. Qed.

Lemma permute_3102 (a : Simd.vec4) :
  Simd._mm256_permute4x64_pd a (Simd._MM_SHUFFLE 3 1 0 2) =
  Simd.mk4 (Simd.lane2 a) (Simd.lane0 a) (Simd.lane1 a) (Simd.lane3 a).
Proof. reflexivity. Qed.

(** C7.  In the three classes [v.cross(o)] has the components
    (y*o.z - z*o.y, z*o.x - x*o.z, x*o.y - y*o.x), each product and
    difference rounded in the element type; the register classes reach
    them by lane rotations.  (1,0,0) x (0,1,0) is (0,0,1) in every class. *)
Theorem cross_is_standard_cross_product
  (fmt : Elt.format) (v o : Vector3_reg.vector3_reg)
  (vf wf : Vector3f_simd.vector3f_simd) (vd wd : Vector3d_simd.vector3d_simd) :
  let c := Vector3_reg.cross fmt v o in
  let cf := Vector3f_simd.cross vf wf in
  let cd := Vector3d_simd.cross vd wd in
  (Vector3_reg.x c =
     Elt.sub fmt (Elt.mul fmt (Vector3_reg.y v) (Vector3_reg.z o))
                 (Elt.mul fmt (Vector3_reg.z v) (Vector3_reg.y o)) /\
   Vector3_reg.y c =
     Elt.sub fmt (Elt.mul fmt (Vector3_reg.z v) (Vector3_reg.x o))
                 (Elt.mul fmt (Vector3_reg.x v) (Vector3_reg.z o)) /\
   Vector3_reg.z c =
     Elt.sub fmt (Elt.mul fmt (Vector3_reg.x v) (Vector3_reg.y o))
                 (Elt.mul fmt (Vector3_reg.y v) (Vector3_reg.x o))) /\
  (Vector3f_simd.x cf =
     Elt.sub Elt.binary32
       (Elt.mul Elt.binary32 (Vector3f_simd.y vf) (Vector3f_simd.z wf))
       (Elt.mul Elt.binary32 (Vector3f_simd.z vf) (Vector3f_simd.y wf)) /\
   Vector3f_simd.y cf =
     Elt.sub Elt.binary32
       (Elt.mul Elt.binary32 (Vector3f_simd.z vf) (Vector3f_simd.x wf))
       (Elt.mul Elt.binary32 (Vector3f_simd.x vf) (Vector3f_simd.z wf)) /\
   Vector3f_simd.z cf =
     Elt.sub Elt.binary32
       (Elt.mul Elt.binary32 (Vector3f_simd.x vf) (Vector3f_simd.y wf))
       (Elt.mul Elt.binary32 (Vector3f_simd.y vf) (Vector3f_simd.x wf))) /\
  (Vector3d_simd.x cd =
     Elt.sub Elt.binary64
       (Elt.mul Elt.binary64 (Vector3d_simd.y vd) (Vector3d_simd.z wd))
       (Elt.mul Elt.binary64 (Vector3d_simd.z vd) (Vector3d_simd.y wd)) /\
   Vector3d_simd.y cd =
     Elt.sub Elt.binary64
       (Elt.mul Elt.binary64 (Vector3d_simd.z vd) (Vector3d_simd.x wd))
       (Elt.mul Elt.binary64 (Vector3d_simd.x vd) (Vector3d_simd.z wd)) /\
   Vector3d_simd.z cd =
     Elt.sub Elt.binary64
       (Elt.mul Elt.binary64 (Vector3d_simd.x vd) (Vector3d_simd.y wd))
       (Elt.mul Elt.binary64 (Vector3d_simd.y vd) (Vector3d_simd.x wd))) /\
  (let e := Vector3_reg.cross Elt.binary64
              (Vector3_reg.ctor (f64 1) (f64 0) (f64 0))
              (Vector3_reg.ctor (f64 0) (f64 1) (f64 0)) in
   (Vector3_reg.x e, Vector3_reg.y e, Vector3_reg.z e) = (f64 0, f64 0, f64 1)) /\
  (let e := Vector3_reg.cross Elt.binary32
              (Vector3_reg.ctor (f32 1) (f32 0) (f32 0))
              (Vector3_reg.ctor (f32 0) (f32 1) (f32 0)) in
   (Vector3_reg.x e, Vector3_reg.y e, Vector3_reg.z e) = (f32 0, f32 0, f32 1)) /\
  (let e := Vector3f_simd.cross
              (Vector3f_simd.ctor (f32 1) (f32 0) (f32 0))
              (Vector3f_simd.ctor (f32 0) (f32 1) (f32 0)) in
   (Vector3f_simd.x e, Vector3f_simd.y e, Vector3f_simd.z e) = (f32 0, f32 0, f32 1)) /\
  (let e := Vector3d_simd.cross
              (Vector3d_simd.ctor (f64 1) (f64 0) (f64 0))
              (Vector3d_simd.ctor (f64 0) (f64 1) (f64 0)) in
   (Vector3d_simd.x e, Vector3d_simd.y e, Vector3d_simd.z e) = (f64 0, f64 0, f64 1)).
Proof.
  intros c cf cd. subst c cf cd.
  split; [ repeat split | ].
  split.
  { unfold Vector3f_simd.cross. rewrite !shuffle_3021, !shuffle_3102.
    repeat split. }
  split.
  { unfold Vector3d_simd.cross. rewrite !permute_3021, !permute_3102.
    repeat split. }
  repeat split; vm_compute; reflexivity.
Qed.

(* ================================================================= *)
(** ** Chained insertion *)

(** What [v << a, b, c] does to a vector of each class, whatever its
    members held before: the three values land in x, y, z, the fourth
    lane keeps its value, the counter ends at 3 and nothing is reported. *)
Lemma vector3_reg_chain (a b c : spec_float) (s : Method.state Vector3_reg.vector3_reg) :
  Vector3_reg.chain a b c s =
  (tt, Method.mkState (Vector3_reg.mk a b c 3) (Method.cerr s)).
Proof. destruct s as [[x0 y0 z0 n] log]. reflexivity. Qed.

Lemma vector3f_simd_chain (a b c : spec_float) (s : Method.state Vector3f_simd.vector3f_simd) :
  Vector3f_simd.chain a b c s =
  (tt, Method.mkState
         (Vector3f_simd.mk (Simd.mk4 a b c (Vector3f_simd.padding (Method.this s))) 3)
         (Method.cerr s)).
Proof. destruct s as [[[x0 y0 z0 p] n] log]. reflexivity. Qed.

Lemma vector3d_simd_chain (a b c : spec_float) (s : Method.state Vector3d_simd.vector3d_simd) :
  Vector3d_simd.chain a b c s =
  (tt, Method.mkState
         (Vector3d_simd.mk (Simd.mk4 a b c (Vector3d_simd.padding (Method.this s))) 3)
         (Method.cerr s)).
Proof. destruct s as [[[x0 y0 z0 p] n] log]. reflexivity. Qed.

(** C6.  In every class, [v << a, b, c] on a vector in any state leaves
    x, y, z equal to those of the vector constructed from (a, b, c) and
    reports nothing; [v << 1.0, 2.0, 3.0] is the instance a = 1, b = 2,
    c = 3. *)
Theorem chained_insertion_sets_components
  (v : Vector3_reg.vector3_reg) (vf : Vector3f_simd.vector3f_simd)
  (vd : Vector3d_simd.vector3d_simd) (a b c : spec_float) :
  let r := Method.after (Vector3_reg.chain a b c) v in
  let rf := Method.after (Vector3f_simd.chain a b c) vf in
  let rd := Method.after (Vector3d_simd.chain a b c) vd in
  ((Vector3_reg.x r, Vector3_reg.y r, Vector3_reg.z r) = (a, b, c) /\
   (Vector3_reg.x r, Vector3_reg.y r, Vector3_reg.z r) =
     (Vector3_reg.x (Vector3_reg.ctor a b c), Vector3_reg.y (Vector3_reg.ctor a b c),
      Vector3_reg.z (Vector3_reg.ctor a b c)) /\
   Method.diagnostics (Vector3_reg.chain a b c) v = []) /\
  ((Vector3f_simd.x rf, Vector3f_simd.y rf, Vector3f_simd.z rf) = (a, b, c) /\
   (Vector3f_simd.x rf, Vector3f_simd.y rf, Vector3f_simd.z rf) =
     (Vector3f_simd.x (Vector3f_simd.ctor a b c), Vector3f_simd.y (Vector3f_simd.ctor a b c),
      Vector3f_simd.z (Vector3f_simd.ctor a b c)) /\
   Method.diagnostics (Vector3f_simd.chain a b c) vf = []) /\
  ((Vector3d_simd.x rd, Vector3d_simd.y rd, Vector3d_simd.z rd) = (a, b, c) /\
   (Vector3d_simd.x rd, Vector3d_simd.y rd, Vector3d_simd.z rd) =
     (Vector3d_simd.x (Vector3d_simd.ctor a b c), Vector3d_simd.y (Vector3d_simd.ctor a b c),
      Vector3d_simd.z (Vector3d_simd.ctor a b c)) /\
   Method.diagnostics (Vector3d_simd.chain a b c) vd = []).
Proof.
  intros r rf rd. subst r rf rd.
  unfold Method.after, Method.diagnostics, Method.call.
  rewrite vector3_reg_chain, vector3f_simd_chain, vector3d_simd_chain.
  repeat split.
Qed.

(** The literal statement, on default-constructed vectors. *)
Example chained_insertion_1_2_3 :
  Method.after (Vector3_reg.chain (f64 1) (f64 2) (f64 3)) Vector3_reg.ctor_default =
    Vector3_reg.mk (f64 1) (f64 2) (f64 3) 3 /\
  Vector3f_simd.mmvalue
    (Method.after (Vector3f_simd.chain (f32 1) (f32 2) (f32 3)) Vector3f_simd.ctor_default) =
    Vector3f_simd.mmvalue (Vector3f_simd.ctor (f32 1) (f32 2) (f32 3)) /\
  Vector3d_simd.mmvalue
    (Method.after (Vector3d_simd.chain (f64 1) (f64 2) (f64 3)) Vector3d_simd.ctor_default) =
    Vector3d_simd.mmvalue (Vector3d_simd.ctor (f64 1) (f64 2) (f64 3)).
Proof. repeat split. Qed.

(** The continuation operator on a vector whose counter is 0. *)
Lemma vector3_reg_comma_unarmed (value : spec_float) (s : Method.state Vector3_reg.vector3_reg) :
  Vector3_reg.been_inserted (Method.this s) = 0 ->
  Vector3_reg.op_comma value s =
  (tt, Method.mkState (Method.this s) (Method.cerr s ++ [bad_use_message])).
Proof.
  intro H. unfold Vector3_reg.op_comma, Method.bind, Method.self.
  rewrite H. reflexivity.
Qed.

Lemma vector3f_simd_comma_unarmed (value : spec_float) (s : Method.state Vector3f_simd.vector3f_simd) :
  Vector3f_simd.been_inserted (Method.this s) = 0 ->
  Vector3f_simd.op_comma value s =
  (tt, Method.mkState (Method.this s) (Method.cerr s ++ [bad_use_message])).
Proof.
  intro H. unfold Vector3f_simd.op_comma, Method.bind, Method.self.
  rewrite H. reflexivity.
Qed.

Lemma vector3d_simd_comma_unarmed (value : spec_float) (s : Method.state Vector3d_simd.vector3d_simd) :
  Vector3d_simd.been_inserted (Method.this s) = 0 ->
  Vector3d_simd.op_comma value s =
  (tt, Method.mkState (Method.this s) (Method.cerr s ++ [bad_use_message])).
Proof.
  intro H. unfold Vector3d_simd.op_comma, Method.bind, Method.self.
  rewrite H. reflexivity.
Qed.

(** The continuation operator on a vector whose counter is 3 or more. *)
Lemma vector3_reg_comma_full (value : spec_float) (s : Method.state Vector3_reg.vector3_reg) :
  3 <= Vector3_reg.been_inserted (Method.this s) ->
  Vector3_reg.op_comma value s =
  (tt, Method.mkState (Method.this s) (Method.cerr s ++ [too_many_message])).
Proof.
  intro H. unfold Vector3_reg.op_comma, Method.bind, Method.self.
  destruct (Z.eqb_spec (Vector3_reg.been_inserted (Method.this s)) 0); [lia|].
  destruct (Z.eqb_spec (Vector3_reg.been_inserted (Method.this s)) 1); [lia|].
  destruct (Z.eqb_spec (Vector3_reg.been_inserted (Method.this s)) 2); [lia|].
  reflexivity.
Qed.

Lemma vector3f_simd_comma_full (value : spec_float) (s : Method.state Vector3f_simd.vector3f_simd) :
  3 <= Vector3f_simd.been_inserted (Method.this s) ->
  Vector3f_simd.op_comma value s =
  (tt, Method.mkState (Method.this s) (Method.cerr s ++ [too_many_message])).
Proof.
  intro H. unfold Vector3f_simd.op_comma, Method.bind, Method.self.
  destruct (Z.eqb_spec (Vector3f_simd.been_inserted (Method.this s)) 0); [lia|].
  destruct (Z.eqb_spec (Vector3f_simd.been_inserted (Method.this s)) 1); [lia|].
  destruct (Z.eqb_spec (Vector3f_simd.been_inserted (Method.this s)) 2); [lia|].
  reflexivity.
Qed.

Lemma vector3d_simd_comma_full (value : spec_float) (s : Method.state Vector3d_simd.vector3d_simd) :
  3 <= Vector3d_simd.been_inserted (Method.this s) ->
  Vector3d_simd.op_comma value s =
  (tt, Method.mkState (Method.this s) (Method.cerr s ++ [too_many_message])).
Proof.
  intro H. unfold Vector3d_simd.op_comma, Method.bind, Method.self.
  destruct (Z.eqb_spec (Vector3d_simd.been_inserted (Method.this s)) 0); [lia|].
  destruct (Z.eqb_spec (Vector3d_simd.been_inserted (Method.this s)) 1); [lia|].
  destruct (Z.eqb_spec (Vector3d_simd.been_inserted (Method.this s)) 2); [lia|].
  reflexivity.
Qed.

(** C5.  In every class the continuation operator on a vector whose
    counter is 0 appends the bad-use message to the error channel and
    returns with every member as it was; a third continuation after
    [u << a, b, c] appends the too-many message and again changes no
    member, so x, y, z stay (a, b, c).  The operator always returns. *)
Theorem comma_misuse_is_reported_and_harmless
  (log : list string) (value : spec_float)
  (v : Vector3_reg.vector3_reg) (vf : Vector3f_simd.vector3f_simd)
  (vd : Vector3d_simd.vector3d_simd)
  (Hv : Vector3_reg.been_inserted v = 0)
  (Hvf : Vector3f_simd.been_inserted vf = 0)
  (Hvd : Vector3d_simd.been_inserted vd = 0)
  (u : Vector3_reg.vector3_reg) (uf : Vector3f_simd.vector3f_simd)
  (ud : Vector3d_simd.vector3d_simd) (a b c d : spec_float) :
  (Vector3_reg.op_comma value (Method.mkState v log) =
     (tt, Method.mkState v (log ++ [bad_use_message])) /\
   Vector3f_simd.op_comma value (Method.mkState vf log) =
     (tt, Method.mkState vf (log ++ [bad_use_message])) /\
   Vector3d_simd.op_comma value (Method.mkState vd log) =
     (tt, Method.mkState vd (log ++ [bad_use_message]))) /\
  (let s := snd (Vector3_reg.chain a b c (Method.mkState u log)) in
   Vector3_reg.op_comma d s =
     (tt, Method.mkState (Method.this s) (log ++ [too_many_message])) /\
   (Vector3_reg.x (Method.this s), Vector3_reg.y (Method.this s),
    Vector3_reg.z (Method.this s)) = (a, b, c)) /\
  (let s := snd (Vector3f_simd.chain a b c (Method.mkState uf log)) in
   Vector3f_simd.op_comma d s =
     (tt, Method.mkState (Method.this s) (log ++ [too_many_message])) /\
   (Vector3f_simd.x (Method.this s), Vector3f_simd.y (Method.this s),
    Vector3f_simd.z (Method.this s)) = (a, b, c)) /\
  (let s := snd (Vector3d_simd.chain a b c (Method.mkState ud log)) in
   Vector3d_simd.op_comma d s =
     (tt, Method.mkState (Method.this s) (log ++ [too_many_message])) /\
   (Vector3d_simd.x (Method.this s), Vector3d_simd.y (Method.this s),
    Vector3d_simd.z (Method.this s)) = (a, b, c)).
Proof.
  split; [ repeat split | ].
  - now apply (vector3_reg_comma_unarmed value (Method.mkState v log)).
  - now apply (vector3f_simd_comma_unarmed value (Method.mkState vf log)).
  - now apply (vector3d_simd_comma_unarmed value (Method.mkState vd log)).
  - rewrite vector3_reg_chain, vector3f_simd_chain, vector3d_simd_chain.
    cbn [snd].
    repeat split;
      (rewrite vector3_reg_comma_full || rewrite vector3f_simd_comma_full
       || rewrite vector3d_simd_comma_full);
      (reflexivity || (cbn; lia)).
Qed.

Lemma comma_misuse_is_reported_and_harmless_witness :
  (Vector3_reg.been_inserted Vector3_reg.ctor_default = 0 /\
   Vector3f_simd.been_inserted Vector3f_simd.ctor_default = 0 /\
   Vector3d_simd.been_inserted Vector3d_simd.ctor_default = 0) /\
  Vector3_reg.op_comma (f64 7) (Method.mkState Vector3_reg.ctor_default []) =
    (tt, Method.mkState Vector3_reg.ctor_default [bad_use_message]) /\
  (let s := snd (Vector3f_simd.chain (f32 1) (f32 2) (f32 3)
                   (Method.mkState Vector3f_simd.ctor_default [])) in
   Vector3f_simd.op_comma (f32 4) s =
     (tt, Method.mkState (Method.this s) [too_many_message]) /\
   (Vector3f_simd.x (Method.this s), Vector3f_simd.y (Method.this s),
    Vector3f_simd.z (Method.this s)) = (f32 1, f32 2, f32 3)).
Proof.
  pose proof (comma_misuse_is_reported_and_harmless [] (f64 7)
                Vector3_reg.ctor_default Vector3f_simd.ctor_default
                Vector3d_simd.ctor_default eq_refl eq_refl eq_refl
                Vector3_reg.ctor_default Vector3f_simd.ctor_default
                Vector3d_simd.ctor_default (f32 1) (f32 2) (f32 3) (f32 4)) as H.
  split; [ repeat split | ].
  split.
  - exact (proj1 (proj1 H)).
  - exact (proj1 (proj2 (proj2 H))).
Defined.

(* ================================================================= *)
(** ** Stream parse *)

(** C10.  [input >> v] stores into x, y and z only: the counter keeps
    its value in every class and the fourth lane of a register class
    keeps its value, whatever the stream holds; from a good stream that
    starts with three numbers the three components are those numbers,
    in order, and the stream is left after them. *)
Theorem stream_parse_assigns_only_components
  (input : Istream.istream) (a b c : spec_float) (rest : list Istream.token)
  (v : Vector3_reg.vector3_reg) (vf : Vector3f_simd.vector3f_simd)
  (vd : Vector3d_simd.vector3d_simd) :
  Vector3_reg.been_inserted (snd (Vector3_reg.op_extract input v)) =
    Vector3_reg.been_inserted v /\
  (Vector3f_simd.been_inserted (snd (Vector3f_simd.op_extract input vf)) =
     Vector3f_simd.been_inserted vf /\
   Vector3f_simd.padding (snd (Vector3f_simd.op_extract input vf)) =
     Vector3f_simd.padding vf) /\
  (Vector3d_simd.been_inserted (snd (Vector3d_simd.op_extract input vd)) =
     Vector3d_simd.been_inserted vd /\
   Vector3d_simd.padding (snd (Vector3d_simd.op_extract input vd)) =
     Vector3d_simd.padding vd) /\
  (let three :=
     Istream.mkStream (Istream.Num a :: Istream.Num b :: Istream.Num c :: rest) false in
   Vector3_reg.op_extract three v =
     (Istream.mkStream rest false,
      Vector3_reg.mk a b c (Vector3_reg.been_inserted v)) /\
   Vector3f_simd.op_extract three vf =
     (Istream.mkStream rest false,
      Vector3f_simd.mk (Simd.mk4 a b c (Vector3f_simd.padding vf))
                       (Vector3f_simd.been_inserted vf)) /\
   Vector3d_simd.op_extract three vd =
     (Istream.mkStream rest false,
      Vector3d_simd.mk (Simd.mk4 a b c (Vector3d_simd.padding vd))
                       (Vector3d_simd.been_inserted vd))).
Proof.
  repeat split.
  - unfold Vector3_reg.op_extract.
    destruct (Istream.extract input _) as [i1 a1].
    destruct (Istream.extract i1 _) as [i2 a2].
    destruct (Istream.extract i2 _) as [i3 a3]. reflexivity.
  - unfold Vector3f_simd.op_extract.
    destruct (Istream.extract input _) as [i1 a1].
    destruct (Istream.extract i1 _) as [i2 a2].
    destruct (Istream.extract i2 _) as [i3 a3]. reflexivity.
  - unfold Vector3f_simd.op_extract.
    destruct (Istream.extract input _) as [i1 a1].
    destruct (Istream.extract i1 _) as [i2 a2].
    destruct (Istream.extract i2 _) as [i3 a3]. reflexivity.
  - unfold Vector3d_simd.op_extract.
    destruct (Istream.extract input _) as [i1 a1].
    destruct (Istream.extract i1 _) as [i2 a2].
    destruct (Istream.extract i2 _) as [i3 a3]. reflexivity.
  - unfold Vector3d_simd.op_extract.
    destruct (Istream.extract input _) as [i1 a1].
    destruct (Istream.extract i1 _) as [i2 a2].
    destruct (Istream.extract i2 _) as [i3 a3]. reflexivity.
Qed.

(* ================================================================= *)
(** ** normalize *)

(** C9.  [normalize()] returns with the receiver (and the error
    channel) exactly as it found them, in every class, and its result
    is a vector of its own with an inert counter: the scalar class
    divides each component by [length()], the wide-lane class
    multiplies every lane by [rlength()] = 1/[length()], and the
    narrow-lane class multiplies every lane by the processor's
    approximate reciprocal square root of the three-lane dot product,
    the value [rlength()] returns. *)
Theorem normalize_leaves_receiver
  (fmt : Elt.format) (rsqrt : spec_float -> spec_float)
  (s : Method.state Vector3_reg.vector3_reg)
  (sf : Method.state Vector3f_simd.vector3f_simd)
  (sd : Method.state Vector3d_simd.vector3d_simd) :
  let v := Method.this s in
  let vf := Method.this sf in
  let vd := Method.this sd in
  Vector3_reg.normalize fmt s =
    (Vector3_reg.mk (Elt.div fmt (Vector3_reg.x v) (Vector3_reg.length fmt v))
                    (Elt.div fmt (Vector3_reg.y v) (Vector3_reg.length fmt v))
                    (Elt.div fmt (Vector3_reg.z v) (Vector3_reg.length fmt v)) 0,
     s) /\
  Vector3f_simd.normalize rsqrt sf =
    (Vector3f_simd.mk
       (Simd.mk4
          (Elt.mul Elt.binary32 (Vector3f_simd.x vf) (Vector3f_simd.rlength rsqrt vf))
          (Elt.mul Elt.binary32 (Vector3f_simd.y vf) (Vector3f_simd.rlength rsqrt vf))
          (Elt.mul Elt.binary32 (Vector3f_simd.z vf) (Vector3f_simd.rlength rsqrt vf))
          (Elt.mul Elt.binary32 (Vector3f_simd.padding vf) (Vector3f_simd.rlength rsqrt vf)))
       0,
     sf) /\
  Vector3f_simd.rlength rsqrt vf = rsqrt (Vector3f_simd.dot vf vf) /\
  Vector3d_simd.normalize sd =
    (Vector3d_simd.mk
       (Simd.mk4
          (Elt.mul Elt.binary64 (Vector3d_simd.x vd) (Vector3d_simd.rlength vd))
          (Elt.mul Elt.binary64 (Vector3d_simd.y vd) (Vector3d_simd.rlength vd))
          (Elt.mul Elt.binary64 (Vector3d_simd.z vd) (Vector3d_simd.rlength vd))
          (Elt.mul Elt.binary64 (Vector3d_simd.padding vd) (Vector3d_simd.rlength vd)))
       0,
     sd) /\
  Vector3d_simd.rlength vd =
    Elt.div Elt.binary64 (f64 1) (Vector3d_simd.length vd).
Proof.
  destruct s as [[x0 y0 z0 n] log], sf as [[[xf yf zf pf] nf] logf],
           sd as [[[xd yd zd pd] nd] logd].
  repeat split.
Qed.

(* ================================================================= *)
(** ** Construction and the insertion counter *)

(** Every constructor the classes declare sets the counter to 0. *)
Lemma declared_constructors_inert (a b c : spec_float) (r : Simd.vec4)
  (other : Vector3_reg.vector3_reg) :
  Vector3_reg.been_inserted Vector3_reg.ctor_default = 0 /\
  Vector3_reg.been_inserted (Vector3_reg.ctor a b c) = 0 /\
  Vector3_reg.been_inserted (Vector3_reg.ctor_copy other) = 0 /\
  Vector3f_simd.been_inserted Vector3f_simd.ctor_default = 0 /\
  Vector3f_simd.been_inserted (Vector3f_simd.ctor a b c) = 0 /\
  Vector3f_simd.been_inserted (Vector3f_simd.ctor_reg r) = 0 /\
  Vector3d_simd.been_inserted Vector3d_simd.ctor_default = 0 /\
  Vector3d_simd.been_inserted (Vector3d_simd.ctor a b c) = 0 /\
  Vector3d_simd.been_inserted (Vector3d_simd.ctor_reg r) = 0.
Proof. repeat split. Qed.

(** A copy has the x, y, z of its source in every class. *)
Lemma copy_duplicates_components (v : Vector3_reg.vector3_reg)
  (vf : Vector3f_simd.vector3f_simd) (vd : Vector3d_simd.vector3d_simd) :
  (Vector3_reg.x (Vector3_reg.ctor_copy v), Vector3_reg.y (Vector3_reg.ctor_copy v),
   Vector3_reg.z (Vector3_reg.ctor_copy v)) =
    (Vector3_reg.x v, Vector3_reg.y v, Vector3_reg.z v) /\
  Vector3f_simd.mmvalue (Vector3f_simd.ctor_copy vf) = Vector3f_simd.mmvalue vf /\
  Vector3d_simd.mmvalue (Vector3d_simd.ctor_copy vd) = Vector3d_simd.mmvalue vd.
Proof. repeat split. Qed.

(** C8 (fails for copies in the register classes).  After [v << 1.0]
    on a default-constructed vector the counter is 1; a copy of that
    vector has counter 0 in the scalar class, whose copy constructor
    resets it, and counter 1 in [vector3f_simd] and [vector3d_simd],
    so a continuation on the copy stores into its y and is not
    reported. *)
Theorem simd_copy_keeps_armed_counter :
  let v := Method.after (Vector3_reg.op_shl (f64 1)) Vector3_reg.ctor_default in
  let vf := Method.after (Vector3f_simd.op_shl (f32 1)) Vector3f_simd.ctor_default in
  let vd := Method.after (Vector3d_simd.op_shl (f64 1)) Vector3d_simd.ctor_default in
  (Vector3_reg.been_inserted v = 1 /\
   Vector3_reg.been_inserted (Vector3_reg.ctor_copy v) = 0 /\
   Method.call (Vector3_reg.op_comma (f64 5)) (Vector3_reg.ctor_copy v) =
     (tt, Method.mkState (Vector3_reg.ctor_copy v) [bad_use_message])) /\
  (Vector3f_simd.been_inserted vf = 1 /\
   Vector3f_simd.been_inserted (Vector3f_simd.ctor_copy vf) = 1 /\
   Method.call (Vector3f_simd.op_comma (f32 5)) (Vector3f_simd.ctor_copy vf) =
     (tt, Method.mkState
            (Vector3f_simd.mk (Simd.mk4 (f32 1) (f32 5) Elt.zero Elt.zero) 2) [])) /\
  (Vector3d_simd.been_inserted vd = 1 /\
   Vector3d_simd.been_inserted (Vector3d_simd.ctor_copy vd) = 1 /\
   Method.call (Vector3d_simd.op_comma (f64 5)) (Vector3d_simd.ctor_copy vd) =
     (tt, Method.mkState
            (Vector3d_simd.mk (Simd.mk4 (f64 1) (f64 5) Elt.zero Elt.zero) 2) [])).
Proof. repeat split. Qed.

(* ================================================================= *)
(** ** Division and the fourth lane *)

(** C3.  For register vectors [a] and [b], [b] with a zero fourth
    lane, the x, y, z of [a / b] are a.x/b.x, a.y/b.y, a.z/b.z: each is
    the quotient of its own lane, so they are the same whatever the
    fourth lane of the divisor holds. *)
Theorem division_components_ignore_divisor_padding
  (a b : Vector3f_simd.vector3f_simd) (a' b' : Vector3d_simd.vector3d_simd)
  (Hb : Vector3f_simd.padding b = Elt.zero)
  (Hb' : Vector3d_simd.padding b' = Elt.zero) :
  let q := Vector3f_simd.op_div a b in
  let q' := Vector3d_simd.op_div a' b' in
  (Vector3f_simd.x q = Elt.div Elt.binary32 (Vector3f_simd.x a) (Vector3f_simd.x b) /\
   Vector3f_simd.y q = Elt.div Elt.binary32 (Vector3f_simd.y a) (Vector3f_simd.y b) /\
   Vector3f_simd.z q = Elt.div Elt.binary32 (Vector3f_simd.z a) (Vector3f_simd.z b)) /\
  (Vector3d_simd.x q' = Elt.div Elt.binary64 (Vector3d_simd.x a') (Vector3d_simd.x b') /\
   Vector3d_simd.y q' = Elt.div Elt.binary64 (Vector3d_simd.y a') (Vector3d_simd.y b') /\
   Vector3d_simd.z q' = Elt.div Elt.binary64 (Vector3d_simd.z a') (Vector3d_simd.z b')) /\
  (forall p : spec_float,
     let qp := Vector3f_simd.op_div a
                 (Vector3f_simd.ctor_reg (Simd.set_lane3 (Vector3f_simd.mmvalue b) p)) in
     (Vector3f_simd.x qp, Vector3f_simd.y qp, Vector3f_simd.z qp) =
     (Vector3f_simd.x q, Vector3f_simd.y q, Vector3f_simd.z q)) /\
  (forall p : spec_float,
     let qp := Vector3d_simd.op_div a'
                 (Vector3d_simd.ctor_reg (Simd.set_lane3 (Vector3d_simd.mmvalue b') p)) in
     (Vector3d_simd.x qp, Vector3d_simd.y qp, Vector3d_simd.z qp) =
     (Vector3d_simd.x q', Vector3d_simd.y q', Vector3d_simd.z q')).
Proof.
  destruct a as [[a0 a1 a2 a3] na], b as [[b0 b1 b2 b3] nb].
  destruct a' as [[c0 c1 c2 c3] nc], b' as [[d0 d1 d2 d3] nd].
  repeat split.
Qed.

Lemma division_components_ignore_divisor_padding_witness :
  let a := Vector3f_simd.ctor (f32 1) (f32 2) (f32 3) in
  let b := Vector3f_simd.ctor_reg (Simd.mk4 (f32 1) (f32 2) (f32 4) Elt.zero) in
  let a' := Vector3d_simd.ctor (f64 1) (f64 2) (f64 3) in
  let b' := Vector3d_simd.ctor_reg (Simd.mk4 (f64 1) (f64 2) (f64 4) Elt.zero) in
  (Vector3f_simd.padding b = Elt.zero /\ Vector3d_simd.padding b' = Elt.zero) /\
  (Vector3f_simd.x (Vector3f_simd.op_div a b) =
     Elt.div Elt.binary32 (Vector3f_simd.x a) (Vector3f_simd.x b) /\
   Vector3f_simd.y (Vector3f_simd.op_div a b) =
     Elt.div Elt.binary32 (Vector3f_simd.y a) (Vector3f_simd.y b) /\
   Vector3f_simd.z (Vector3f_simd.op_div a b) =
     Elt.div Elt.binary32 (Vector3f_simd.z a) (Vector3f_simd.z b)) /\
  (Vector3d_simd.x (Vector3d_simd.op_div a' b') =
     Elt.div Elt.binary64 (Vector3d_simd.x a') (Vector3d_simd.x b') /\
   Vector3d_simd.y (Vector3d_simd.op_div a' b') =
     Elt.div Elt.binary64 (Vector3d_simd.y a') (Vector3d_simd.y b') /\
   Vector3d_simd.z (Vector3d_simd.op_div a' b') =
     Elt.div Elt.binary64 (Vector3d_simd.z a') (Vector3d_simd.z b')).
Proof.
  intros a b a' b'.
  split; [ split; reflexivity | ].
  pose proof (division_components_ignore_divisor_padding a b a' b' eq_refl eq_refl) as H.
  split; [ exact (proj1 H) | exact (proj1 (proj2 H)) ].
Defined.

(** The quotient of (1,2,3) by the register (1,2,4,0) is (1, 1, 0.75)
    in both register classes: no NaN and no infinity in x, y, z. *)
Example division_by_zero_padded_register :
  let q := Vector3f_simd.op_div (Vector3f_simd.ctor (f32 1) (f32 2) (f32 3))
             (Vector3f_simd.ctor_reg (Simd.mk4 (f32 1) (f32 2) (f32 4) Elt.zero)) in
  let q' := Vector3d_simd.op_div (Vector3d_simd.ctor (f64 1) (f64 2) (f64 3))
              (Vector3d_simd.ctor_reg (Simd.mk4 (f64 1) (f64 2) (f64 4) Elt.zero)) in
  (Vector3f_simd.x q, Vector3f_simd.y q, Vector3f_simd.z q) =
    (f32 1, f32 1, Elt.div Elt.binary32 (f32 3) (f32 4)) /\
  (Vector3d_simd.x q', Vector3d_simd.y q', Vector3d_simd.z q') =
    (f64 1, f64 1, Elt.div Elt.binary64 (f64 3) (f64 4)) /\
  Elt.is_nan_or_inf (Elt.div Elt.binary32 (f32 3) (f32 4)) = false /\
  Elt.is_nan_or_inf (Elt.div Elt.binary64 (f64 3) (f64 4)) = false.
Proof. repeat split; vm_compute; reflexivity. Qed.

(** The fourth lane of a wide-lane quotient is the dividend's fourth
    lane divided by the literal 1.0, for a vector and for a scalar
    divisor, in the operator and in its assignment form. *)
Lemma vector3d_simd_division_padding (a b : Vector3d_simd.vector3d_simd) (s : spec_float) :
  Vector3d_simd.padding (Vector3d_simd.op_div a b) =
    Elt.div Elt.binary64 (Vector3d_simd.padding a) (f64 1) /\
  Vector3d_simd.padding (Vector3d_simd.op_div_scalar a s) =
    Elt.div Elt.binary64 (Vector3d_simd.padding a) (f64 1) /\
  Vector3d_simd.padding (Method.after (Vector3d_simd.op_div_assign b) a) =
    Elt.div Elt.binary64 (Vector3d_simd.padding a) (f64 1) /\
  Vector3d_simd.padding (Method.after (Vector3d_simd.op_div_assign_scalar s) a) =
    Elt.div Elt.binary64 (Vector3d_simd.padding a) (f64 1).
Proof. repeat split. Qed.

(** Expose the fourth lanes named by the induction hypotheses and
    evaluate the fourth lane of the result. *)
Ltac padding_by_lanes :=
  repeat match goal with
         | v : Vector3d_simd.vector3d_simd |- _ => destruct v as [[? ? ? ?] ?]
         end;
  unfold Vector3d_simd.padding in *;
  cbn [Vector3d_simd.mmvalue Simd.lane3] in *;
  subst; reflexivity.

(** The wide-lane operations keep a positive zero in the fourth lane. *)
Lemma vector3d_simd_built_padding (v : Vector3d_simd.vector3d_simd) :
  Vector3d_simd.built v -> Vector3d_simd.padding v = Elt.zero.
Proof.
  induction 1; padding_by_lanes.
Qed.

(** C2 fails in the narrow-lane class: the fourth lane of a
    constructed [vector3f_simd] is zero, [operator/] and [operator/=]
    divide by it as it is, and the fourth lane of (1,2,3) / (1,2,3) is
    0/0 = NaN. *)
Lemma vector3f_simd_division_keeps_zero_divisor_padding :
  let a := Vector3f_simd.ctor (f32 1) (f32 2) (f32 3) in
  let b := Vector3f_simd.ctor (f32 1) (f32 2) (f32 3) in
  Vector3f_simd.padding b = Elt.zero /\
  Vector3f_simd.padding (Vector3f_simd.op_div a b) = S754_nan /\
  Vector3f_simd.padding (Method.after (Vector3f_simd.op_div_assign b) a) = S754_nan /\
  Elt.is_nan_or_inf (Vector3f_simd.padding (Vector3f_simd.op_div a b)) = true.
Proof. repeat split. Qed.

(** C2, as the code has it.  A wide-lane vector made by the default or
    three-argument constructor, by copying, by the arithmetic operators
    or by [cross] has a positive zero in its fourth lane; wide-lane
    division by a vector or by a scalar, operator or assignment form,
    puts 1.0 in the divisor's fourth lane, so the quotient's fourth
    lane is the dividend's divided by 1.0 and is zero again, whatever
    the divisor.  In the narrow-lane class division by a scalar divides
    the fourth lane by that scalar. *)
Theorem vector3d_simd_division_neutralizes_padding
  (v : Vector3d_simd.vector3d_simd) (Hv : Vector3d_simd.built v)
  (b : Vector3d_simd.vector3d_simd) (s : spec_float)
  (af : Vector3f_simd.vector3f_simd) :
  Vector3d_simd.padding v = Elt.zero /\
  (Vector3d_simd.mmvalue (Vector3d_simd.op_div v b) =
     Simd._mm256_div_pd (Vector3d_simd.mmvalue v)
       (Simd.mk4 (Vector3d_simd.x b) (Vector3d_simd.y b) (Vector3d_simd.z b) (f64 1)) /\
   Vector3d_simd.mmvalue (Vector3d_simd.op_div_scalar v s) =
     Simd._mm256_div_pd (Vector3d_simd.mmvalue v) (Simd.mk4 s s s (f64 1))) /\
  (Vector3d_simd.padding (Vector3d_simd.op_div v b) = Elt.zero /\
   Vector3d_simd.padding (Vector3d_simd.op_div_scalar v s) = Elt.zero /\
   Vector3d_simd.padding (Method.after (Vector3d_simd.op_div_assign b) v) = Elt.zero /\
   Vector3d_simd.padding (Method.after (Vector3d_simd.op_div_assign_scalar s) v) = Elt.zero) /\
  Vector3f_simd.padding (Vector3f_simd.op_div_scalar af s) =
    Elt.div Elt.binary32 (Vector3f_simd.padding af) s.
Proof.
  pose proof (vector3d_simd_built_padding v Hv) as Hp.
  destruct (vector3d_simd_division_padding v b s) as (H1 & H2 & H3 & H4).
  split; [ exact Hp | ].
  split; [ split; reflexivity | ].
  split; [ | reflexivity ].
  rewrite H1, H2, H3, H4, Hp. repeat split.
Qed.

Lemma vector3d_simd_division_neutralizes_padding_witness :
  let v := Vector3d_simd.op_div (Vector3d_simd.ctor (f64 1) (f64 2) (f64 3))
                                (Vector3d_simd.ctor (f64 1) (f64 2) (f64 3)) in
  let b := Vector3d_simd.ctor_default in
  Vector3d_simd.built v /\
  Vector3d_simd.padding v = Elt.zero /\
  Vector3d_simd.padding (Vector3d_simd.op_div v b) = Elt.zero /\
  Vector3d_simd.padding (Vector3d_simd.op_div_scalar v Elt.zero) = Elt.zero.
Proof.
  intros v b.
  assert (Hv : Vector3d_simd.built v)
    by (apply Vector3d_simd.built_div; apply Vector3d_simd.built_ctor).
  pose proof (vector3d_simd_division_neutralizes_padding v Hv b Elt.zero
                Vector3f_simd.ctor_default) as H.
  split; [ exact Hv | ].
  split; [ exact (proj1 H) | ].
  split; [ exact (proj1 (proj1 (proj2 (proj2 H)))) | ].
  exact (proj1 (proj2 (proj1 (proj2 (proj2 H))))).
Defined.

(* ================================================================= *)
(** ** The wide-lane horizontal sum *)

(** C4 fails: two wide-lane vectors with the same x, y, z and different
    fourth lanes have different lengths (and dot products). *)
Lemma vector3d_simd_length_depends_on_padding :
  ~ (forall v w : Vector3d_simd.vector3d_simd,
       Vector3d_simd.x v = Vector3d_simd.x w ->
       Vector3d_simd.y v = Vector3d_simd.y w ->
       Vector3d_simd.z v = Vector3d_simd.z w ->
       Vector3d_simd.length v = Vector3d_simd.length w /\
       Vector3d_simd.dot v v = Vector3d_simd.dot w w).
Proof.
  intro H.
  destruct (H (Vector3d_simd.ctor_reg (Simd.mk4 (f64 0) (f64 0) (f64 0) (f64 1)))
              (Vector3d_simd.ctor (f64 0) (f64 0) (f64 0))
              eq_refl eq_refl eq_refl) as [Hl _].
  vm_compute in Hl. discriminate Hl.
Qed.

(** C4, as the code has it.  The wide-lane [length()], and [dot()] of a
    vector with itself, add the squares of all four lanes, the fourth
    included: (z*z + p*p) + (x*x + y*y).  When the fourth lane is the
    positive zero, as after the constructors, the sum is the three-lane
    sum z*z + (x*x + y*y). *)
Theorem vector3d_simd_length_sums_four_lanes
  (v : Vector3d_simd.vector3d_simd) (Hp : Vector3d_simd.padding v = Elt.zero) :
  let sq (a : spec_float) := Elt.mul Elt.binary64 a a in
  let three :=
    Elt.add Elt.binary64 (sq (Vector3d_simd.z v))
      (Elt.add Elt.binary64 (sq (Vector3d_simd.x v)) (sq (Vector3d_simd.y v))) in
  (forall w : Vector3d_simd.vector3d_simd,
     let four :=
       Elt.add Elt.binary64
         (Elt.add Elt.binary64 (sq (Vector3d_simd.z w)) (sq (Vector3d_simd.padding w)))
         (Elt.add Elt.binary64 (sq (Vector3d_simd.x w)) (sq (Vector3d_simd.y w))) in
     Vector3d_simd.length w = Elt.sqrt Elt.binary64 four /\
     Vector3d_simd.dot w w = four) /\
  Vector3d_simd.length v = Elt.sqrt Elt.binary64 three /\
  Vector3d_simd.dot v v = three.
Proof.
  intros sq three.
  split; [ intro w; split; reflexivity | ].
  rewrite vector3d_simd_length_value, vector3d_simd_dot_value, Hp.
  subst sq three. cbv beta.
  change (Elt.mul Elt.binary64 Elt.zero Elt.zero) with Elt.zero.
  rewrite !add_square_zero.
  split; reflexivity.
Qed.

Lemma vector3d_simd_length_sums_four_lanes_witness :
  let v := Vector3d_simd.ctor (f64 3) (f64 4) (f64 0) in
  Vector3d_simd.padding v = Elt.zero /\
  Vector3d_simd.length v =
    Elt.sqrt Elt.binary64
      (Elt.add Elt.binary64 (Elt.mul Elt.binary64 (f64 0) (f64 0))
         (Elt.add Elt.binary64 (Elt.mul Elt.binary64 (f64 3) (f64 3))
                               (Elt.mul Elt.binary64 (f64 4) (f64 4)))).
Proof.
  intro v. split; [ reflexivity | ].
  exact (proj1 (proj2 (vector3d_simd_length_sums_four_lanes v eq_refl))).
Defined.

(** (3,4,0) has length 5. *)
Example vector3d_simd_length_3_4_0 :
  Vector3d_simd.length (Vector3d_simd.ctor (f64 3) (f64 4) (f64 0)) = f64 5.
Proof. vm_compute. reflexivity. Qed.


(* ================================================================= *)
(** ** Further facts of IEEE arithmetic *)

Section FloatAlgebra.
Variables prec emax : Z.

Lemma SFadd_comm (a b : spec_float) :
  SFadd prec emax a b = SFadd prec emax b a.
Proof.
  destruct a as [[|] | [|] | | sa ma ea], b as [[|] | [|] | | sb mb eb];
    try reflexivity.
  simpl. rewrite (Z.min_comm eb ea). f_equal. apply Z.add_comm.
Qed.

Lemma SFmul_comm (a b : spec_float) :
  SFmul prec emax a b = SFmul prec emax b a.
Proof.
  destruct a as [sa | sa | | sa ma ea], b as [sb | sb | | sb mb eb];
    simpl; rewrite ?(xorb_comm sb sa), ?(Pos.mul_comm mb ma), ?(Z.add_comm eb ea);
    reflexivity.
Qed.

(** The literal zero on the left changes nothing but the negative zero. *)
Lemma SFadd_zero_l (a : spec_float) :
  a <> S754_zero true -> SFadd prec emax (S754_zero false) a = a.
Proof. intro H. rewrite SFadd_comm. now apply SFadd_zero_r. Qed.

(** Adding the negative zero on the right changes nothing at all. *)
Lemma SFadd_negative_zero_r (a : spec_float) :
  SFadd prec emax a (S754_zero true) = a.
Proof. destruct a as [[|] | s | | s m e]; reflexivity. Qed.

(** A zero or finite number minus itself is the positive zero. *)
Lemma SFsub_diag (a : spec_float) :
  Elt.is_finite a = true -> SFsub prec emax a a = S754_zero false.
Proof.
  destruct a as [[|] | s | | s m e]; try discriminate; try reflexivity.
  intros _. simpl. rewrite Z.sub_diag. reflexivity.
Qed.

(** NaN and the infinities minus themselves are NaN. *)
Lemma SFsub_diag_special (a : spec_float) :
  Elt.is_finite a = false -> SFsub prec emax a a = S754_nan.
Proof. destruct a as [[|] | [|] | | s m e]; try discriminate; reflexivity. Qed.

(** Rounding a positive number gives no negative result. *)
Lemma binary_round_aux_not_negative (m e : Z) (l : location) :
  Elt.is_negative (binary_round_aux prec emax false m e l) = false.
Proof.
  unfold binary_round_aux.
  destruct (shr_fexp prec emax m e l) as [mrs' e'].
  destruct (shr_fexp prec emax _ e' loc_Exact) as [mrs'' e''].
  destruct (shr_m mrs''); try reflexivity.
  destruct (Z.leb e'' (Z.sub emax prec)); reflexivity.
Qed.

Lemma SFmul_self_not_negative (a : spec_float) :
  Elt.is_negative (SFmul prec emax a a) = false.
Proof.
  destruct a as [[|] | [|] | | s m e]; try reflexivity.
  simpl. replace (xorb s s) with false by (destruct s; reflexivity).
  apply binary_round_aux_not_negative.
Qed.

Lemma SFadd_not_negative (a b : spec_float) :
  Elt.is_negative a = false -> Elt.is_negative b = false ->
  Elt.is_negative (SFadd prec emax a b) = false.
Proof.
  destruct a as [sa | sa | | sa ma ea], b as [sb | sb | | sb mb eb];
    simpl; intros Ha Hb; subst; try reflexivity.
  destruct (shl_align ma ea (Z.min ea eb)) as [ma' ea'].
  destruct (shl_align mb eb (Z.min ea eb)) as [mb' eb'].
  cbn [fst cond_Zopp Z.add binary_normalize]. unfold binary_round.
  destruct (shl_align (ma' + mb') _ _) as [mz ez].
  apply binary_round_aux_not_negative.
Qed.

Lemma SFsqrt_not_negative (a : spec_float) :
  Elt.is_negative a = false -> Elt.is_negative (SFsqrt prec emax a) = false.
Proof.
  destruct a as [s | s | | s m e]; simpl; intro H; subst; try reflexivity.
  destruct (SFsqrt_core_binary prec emax (Z.pos m) e) as [[mz ez] lz].
  apply binary_round_aux_not_negative.
Qed.

(** Any number divided by a zero is NaN or an infinity. *)
Lemma SFdiv_by_zero (a : spec_float) (s : bool) :
  Elt.is_nan_or_inf (SFdiv prec emax a (S754_zero s)) = true.
Proof. destruct a as [sa | sa | | sa ma ea]; reflexivity. Qed.

(** Any number times an infinity is NaN or an infinity. *)
Lemma SFmul_by_infinity (a : spec_float) (s : bool) :
  Elt.is_nan_or_inf (SFmul prec emax a (S754_infinity s)) = true.
Proof. destruct a as [sa | sa | | sa ma ea]; reflexivity. Qed.
End FloatAlgebra.

(** The same facts for the arithmetic of an element type. *)
Lemma add_comm (fmt : Elt.format) (a b : spec_float) :
  Elt.add fmt a b = Elt.add fmt b a.
Proof. apply SFadd_comm. Qed.

Lemma mul_comm (fmt : Elt.format) (a b : spec_float) :
  Elt.mul fmt a b = Elt.mul fmt b a.
Proof. apply SFmul_comm. Qed.

Lemma sub_diag (fmt : Elt.format) (a : spec_float) :
  Elt.sub fmt a a = if Elt.is_finite a then Elt.zero else S754_nan.
Proof.
  destruct (Elt.is_finite a) eqn:E.
  - now apply SFsub_diag.
  - now apply SFsub_diag_special.
Qed.

Lemma zero_add_square (fmt : Elt.format) (a : spec_float) :
  Elt.add fmt Elt.zero (Elt.mul fmt a a) = Elt.mul fmt a a.
Proof. apply SFadd_zero_l, SFmul_self_not_negative_zero. Qed.

(* ================================================================= *)
(** ** Algebra of the operators *)

(** X1.  Elementwise addition and multiplication commute in the three
    classes, result for result (padding lane and counter included),
    and a scalar multiplies the same from the left and from the right:
    [value * v] has the components value*x, value*y, value*z. *)
Theorem addition_and_multiplication_commute
  (fmt : Elt.format) (a b : Vector3_reg.vector3_reg)
  (af bf : Vector3f_simd.vector3f_simd) (ad bd : Vector3d_simd.vector3d_simd)
  (value : spec_float) :
  (Vector3_reg.op_add fmt a b = Vector3_reg.op_add fmt b a /\
   Vector3_reg.op_mul fmt a b = Vector3_reg.op_mul fmt b a /\
   Vector3_reg.xyz (Vector3_reg.op_scalar_mul fmt value a) =
     (Elt.mul fmt value (Vector3_reg.x a), Elt.mul fmt value (Vector3_reg.y a),
      Elt.mul fmt value (Vector3_reg.z a))) /\
  (Vector3f_simd.op_add af bf = Vector3f_simd.op_add bf af /\
   Vector3f_simd.op_mul af bf = Vector3f_simd.op_mul bf af /\
   Vector3f_simd.xyz (Vector3f_simd.op_scalar_mul value af) =
     (Elt.mul Elt.binary32 value (Vector3f_simd.x af),
      Elt.mul Elt.binary32 value (Vector3f_simd.y af),
      Elt.mul Elt.binary32 value (Vector3f_simd.z af))) /\
  (Vector3d_simd.op_add ad bd = Vector3d_simd.op_add bd ad /\
   Vector3d_simd.op_mul ad bd = Vector3d_simd.op_mul bd ad /\
   Vector3d_simd.xyz (Vector3d_simd.op_scalar_mul value ad) =
     (Elt.mul Elt.binary64 value (Vector3d_simd.x ad),
      Elt.mul Elt.binary64 value (Vector3d_simd.y ad),
      Elt.mul Elt.binary64 value (Vector3d_simd.z ad))).
Proof.
  destruct a as [a0 a1 a2 na], b as [b0 b1 b2 nb].
  destruct af as [[f0 f1 f2 f3] nf], bf as [[g0 g1 g2 g3] ng].
  destruct ad as [[d0 d1 d2 d3] nd], bd as [[e0 e1 e2 e3] ne].
  repeat split;
    cbv [Vector3_reg.op_add Vector3_reg.op_mul Vector3_reg.ctor
         Vector3_reg.op_scalar_mul Vector3_reg.op_mul_scalar Vector3_reg.xyz
         Vector3_reg.x Vector3_reg.y Vector3_reg.z
         Vector3f_simd.op_add Vector3f_simd.op_mul Vector3f_simd.ctor_reg
         Vector3f_simd.op_scalar_mul Vector3f_simd.op_mul_scalar Vector3f_simd.xyz
         Vector3f_simd.x Vector3f_simd.y Vector3f_simd.z Vector3f_simd.mmvalue
         Vector3d_simd.op_add Vector3d_simd.op_mul Vector3d_simd.ctor_reg
         Vector3d_simd.op_scalar_mul Vector3d_simd.op_mul_scalar Vector3d_simd.xyz
         Vector3d_simd.x Vector3d_simd.y Vector3d_simd.z Vector3d_simd.mmvalue
         Simd._mm_add_ps Simd._mm_mul_ps Simd._mm256_add_pd Simd._mm256_mul_pd
         Simd._mm_set1_ps Simd._mm256_set_pd
         Simd.lanewise Simd.lane0 Simd.lane1 Simd.lane2 Simd.lane3];
    repeat first [ apply add_comm | apply mul_comm | progress f_equal ].
Qed.

(** X2.  The scalar and the narrow-lane dot product are symmetric in
    their two vectors. *)
Theorem dot_is_symmetric
  (fmt : Elt.format) (v o : Vector3_reg.vector3_reg)
  (vf wf : Vector3f_simd.vector3f_simd) :
  Vector3_reg.dot fmt v o = Vector3_reg.dot fmt o v /\
  Vector3f_simd.dot vf wf = Vector3f_simd.dot wf vf.
Proof.
  split.
  - unfold Vector3_reg.dot.
    rewrite (mul_comm fmt (Vector3_reg.x v)), (mul_comm fmt (Vector3_reg.y v)),
            (mul_comm fmt (Vector3_reg.z v)).
    reflexivity.
  - rewrite !vector3f_simd_dot_value.
    rewrite (mul_comm Elt.binary32 (Vector3f_simd.x vf)),
            (mul_comm Elt.binary32 (Vector3f_simd.y vf)),
            (mul_comm Elt.binary32 (Vector3f_simd.z vf)).
    reflexivity.
Qed.

(** The components of a cross product in the register classes. *)
Lemma vector3f_simd_cross_value (v o : Vector3f_simd.vector3f_simd) :
  Vector3f_simd.mmvalue (Vector3f_simd.cross v o) =
  Simd._mm_sub_ps
    (Simd._mm_mul_ps
       (Simd.mk4 (Vector3f_simd.y v) (Vector3f_simd.z v) (Vector3f_simd.x v)
                 (Vector3f_simd.padding v))
       (Simd.mk4 (Vector3f_simd.z o) (Vector3f_simd.x o) (Vector3f_simd.y o)
                 (Vector3f_simd.padding o)))
    (Simd._mm_mul_ps
       (Simd.mk4 (Vector3f_simd.z v) (Vector3f_simd.x v) (Vector3f_simd.y v)
                 (Vector3f_simd.padding v))
       (Simd.mk4 (Vector3f_simd.y o) (Vector3f_simd.z o) (Vector3f_simd.x o)
                 (Vector3f_simd.padding o))).
Proof.
  unfold Vector3f_simd.cross. rewrite !shuffle_3021, !shuffle_3102. reflexivity.
Qed.

Lemma vector3d_simd_cross_value (v o : Vector3d_simd.vector3d_simd) :
  Vector3d_simd.mmvalue (Vector3d_simd.cross v o) =
  Simd._mm256_sub_pd
    (Simd._mm256_mul_pd
       (Simd.mk4 (Vector3d_simd.y v) (Vector3d_simd.z v) (Vector3d_simd.x v)
                 (Vector3d_simd.padding v))
       (Simd.mk4 (Vector3d_simd.z o) (Vector3d_simd.x o) (Vector3d_simd.y o)
                 (Vector3d_simd.padding o)))
    (Simd._mm256_mul_pd
       (Simd.mk4 (Vector3d_simd.z v) (Vector3d_simd.x v) (Vector3d_simd.y v)
                 (Vector3d_simd.padding v))
       (Simd.mk4 (Vector3d_simd.y o) (Vector3d_simd.z o) (Vector3d_simd.x o)
                 (Vector3d_simd.padding o))).
Proof.
  unfold Vector3d_simd.cross. rewrite !permute_3021, !permute_3102. reflexivity.
Qed.

(** X3.  The cross product of a vector with itself and the difference
    of a vector with itself have, in each of x, y, z, the positive zero
    when the value subtracted from itself is finite and NaN when it is
    an infinity or NaN: for [v.cross(v)] the values are the products
    y*z, z*x, x*y, for [v - v] the components themselves. *)
Theorem self_cross_and_self_difference
  (fmt : Elt.format) (v : Vector3_reg.vector3_reg)
  (vf : Vector3f_simd.vector3f_simd) (vd : Vector3d_simd.vector3d_simd) :
  let zero_or_nan (a : spec_float) := if Elt.is_finite a then Elt.zero else S754_nan in
  (Vector3_reg.xyz (Vector3_reg.cross fmt v v) =
     (zero_or_nan (Elt.mul fmt (Vector3_reg.y v) (Vector3_reg.z v)),
      zero_or_nan (Elt.mul fmt (Vector3_reg.z v) (Vector3_reg.x v)),
      zero_or_nan (Elt.mul fmt (Vector3_reg.x v) (Vector3_reg.y v))) /\
   Vector3_reg.xyz (Vector3_reg.op_sub fmt v v) =
     (zero_or_nan (Vector3_reg.x v), zero_or_nan (Vector3_reg.y v),
      zero_or_nan (Vector3_reg.z v))) /\
  (Vector3f_simd.xyz (Vector3f_simd.cross vf vf) =
     (zero_or_nan (Elt.mul Elt.binary32 (Vector3f_simd.y vf) (Vector3f_simd.z vf)),
      zero_or_nan (Elt.mul Elt.binary32 (Vector3f_simd.z vf) (Vector3f_simd.x vf)),
      zero_or_nan (Elt.mul Elt.binary32 (Vector3f_simd.x vf) (Vector3f_simd.y vf))) /\
   Vector3f_simd.xyz (Vector3f_simd.op_sub vf vf) =
     (zero_or_nan (Vector3f_simd.x vf), zero_or_nan (Vector3f_simd.y vf),
      zero_or_nan (Vector3f_simd.z vf))) /\
  (Vector3d_simd.xyz (Vector3d_simd.cross vd vd) =
     (zero_or_nan (Elt.mul Elt.binary64 (Vector3d_simd.y vd) (Vector3d_simd.z vd)),
      zero_or_nan (Elt.mul Elt.binary64 (Vector3d_simd.z vd) (Vector3d_simd.x vd)),
      zero_or_nan (Elt.mul Elt.binary64 (Vector3d_simd.x vd) (Vector3d_simd.y vd))) /\
   Vector3d_simd.xyz (Vector3d_simd.op_sub vd vd) =
     (zero_or_nan (Vector3d_simd.x vd), zero_or_nan (Vector3d_simd.y vd),
      zero_or_nan (Vector3d_simd.z vd))).
Proof.
  intro zero_or_nan. subst zero_or_nan. cbv beta.
  destruct v as [x0 y0 z0 n], vf as [[xf yf zf pf] nf], vd as [[xd yd zd pd] nd].
  repeat split.
  - unfold Vector3_reg.xyz, Vector3_reg.cross. cbn [Vector3_reg.x Vector3_reg.y Vector3_reg.z Vector3_reg.ctor].
    rewrite (mul_comm fmt z0 y0), (mul_comm fmt x0 z0), (mul_comm fmt y0 x0).
    rewrite !sub_diag. reflexivity.
  - unfold Vector3_reg.xyz, Vector3_reg.op_sub. cbn [Vector3_reg.x Vector3_reg.y Vector3_reg.z Vector3_reg.ctor].
    rewrite !sub_diag. reflexivity.
  - unfold Vector3f_simd.xyz, Vector3f_simd.x, Vector3f_simd.y, Vector3f_simd.z.
    rewrite vector3f_simd_cross_value.
    cbn [Vector3f_simd.x Vector3f_simd.y Vector3f_simd.z Vector3f_simd.padding
         Vector3f_simd.mmvalue Simd._mm_sub_ps Simd._mm_mul_ps Simd.lanewise
         Simd.lane0 Simd.lane1 Simd.lane2 Simd.lane3].
    rewrite (mul_comm Elt.binary32 zf yf), (mul_comm Elt.binary32 xf zf),
            (mul_comm Elt.binary32 yf xf).
    rewrite !sub_diag. reflexivity.
  - unfold Vector3f_simd.xyz, Vector3f_simd.op_sub.
    cbn [Vector3f_simd.x Vector3f_simd.y Vector3f_simd.z Vector3f_simd.ctor_reg
         Vector3f_simd.mmvalue Simd._mm_sub_ps Simd.lanewise
         Simd.lane0 Simd.lane1 Simd.lane2 Simd.lane3].
    rewrite !sub_diag. reflexivity.
  - unfold Vector3d_simd.xyz, Vector3d_simd.x, Vector3d_simd.y, Vector3d_simd.z.
    rewrite vector3d_simd_cross_value.
    cbn [Vector3d_simd.x Vector3d_simd.y Vector3d_simd.z Vector3d_simd.padding
         Vector3d_simd.mmvalue Simd._mm256_sub_pd Simd._mm256_mul_pd Simd.lanewise
         Simd.lane0 Simd.lane1 Simd.lane2 Simd.lane3].
    rewrite (mul_comm Elt.binary64 zd yd), (mul_comm Elt.binary64 xd zd),
            (mul_comm Elt.binary64 yd xd).
    rewrite !sub_diag. reflexivity.
  - unfold Vector3d_simd.xyz, Vector3d_simd.op_sub.
    cbn [Vector3d_simd.x Vector3d_simd.y Vector3d_simd.z Vector3d_simd.ctor_reg
         Vector3d_simd.mmvalue Simd._mm256_sub_pd Simd.lanewise
         Simd.lane0 Simd.lane1 Simd.lane2 Simd.lane3].
    rewrite !sub_diag. reflexivity.
Qed.

(* ================================================================= *)
(** ** Assignment forms *)

(** X4.  In the three classes each compound assignment [a op= b], with
    a vector or a scalar on the right, leaves in [a] the value of
    [a op b] and keeps the insertion counter of [a] (the value of
    [a op b] itself has counter 0); nothing is reported. *)
Theorem compound_assignment_agrees_with_operator
  (fmt : Elt.format) (a b : Vector3_reg.vector3_reg)
  (af bf : Vector3f_simd.vector3f_simd) (ad bd : Vector3d_simd.vector3d_simd)
  (value : spec_float) :
  (Forall (fun p => Method.call (fst p b) a =
                    (tt, Method.mkState
                           (Vector3_reg.set_been_inserted (snd p a b)
                              (Vector3_reg.been_inserted a)) []))
     [ (Vector3_reg.op_add_assign fmt, Vector3_reg.op_add fmt);
       (Vector3_reg.op_sub_assign fmt, Vector3_reg.op_sub fmt);
       (Vector3_reg.op_mul_assign fmt, Vector3_reg.op_mul fmt);
       (Vector3_reg.op_div_assign fmt, Vector3_reg.op_div fmt) ] /\
   Forall (fun p => Method.call (fst p value) a =
                    (tt, Method.mkState
                           (Vector3_reg.set_been_inserted (snd p a value)
                              (Vector3_reg.been_inserted a)) []))
     [ (Vector3_reg.op_add_assign_scalar fmt, Vector3_reg.op_add_scalar fmt);
       (Vector3_reg.op_sub_assign_scalar fmt, Vector3_reg.op_sub_scalar fmt);
       (Vector3_reg.op_mul_assign_scalar fmt, Vector3_reg.op_mul_scalar fmt);
       (Vector3_reg.op_div_assign_scalar fmt, Vector3_reg.op_div_scalar fmt) ]) /\
  (Forall (fun p => Method.call (fst p bf) af =
                    (tt, Method.mkState
                           (Vector3f_simd.set_been_inserted (snd p af bf)
                              (Vector3f_simd.been_inserted af)) []))
     [ (Vector3f_simd.op_add_assign, Vector3f_simd.op_add);
       (Vector3f_simd.op_sub_assign, Vector3f_simd.op_sub);
       (Vector3f_simd.op_mul_assign, Vector3f_simd.op_mul);
       (Vector3f_simd.op_div_assign, Vector3f_simd.op_div) ] /\
   Forall (fun p => Method.call (fst p value) af =
                    (tt, Method.mkState
                           (Vector3f_simd.set_been_inserted (snd p af value)
                              (Vector3f_simd.been_inserted af)) []))
     [ (Vector3f_simd.op_add_assign_scalar, Vector3f_simd.op_add_scalar);
       (Vector3f_simd.op_sub_assign_scalar, Vector3f_simd.op_sub_scalar);
       (Vector3f_simd.op_mul_assign_scalar, Vector3f_simd.op_mul_scalar);
       (Vector3f_simd.op_div_assign_scalar, Vector3f_simd.op_div_scalar) ]) /\
  (Forall (fun p => Method.call (fst p bd) ad =
                    (tt, Method.mkState
                           (Vector3d_simd.set_been_inserted (snd p ad bd)
                              (Vector3d_simd.been_inserted ad)) []))
     [ (Vector3d_simd.op_add_assign, Vector3d_simd.op_add);
       (Vector3d_simd.op_sub_assign, Vector3d_simd.op_sub);
       (Vector3d_simd.op_mul_assign, Vector3d_simd.op_mul);
       (Vector3d_simd.op_div_assign, Vector3d_simd.op_div) ] /\
   Forall (fun p => Method.call (fst p value) ad =
                    (tt, Method.mkState
                           (Vector3d_simd.set_been_inserted (snd p ad value)
                              (Vector3d_simd.been_inserted ad)) []))
     [ (Vector3d_simd.op_add_assign_scalar, Vector3d_simd.op_add_scalar);
       (Vector3d_simd.op_sub_assign_scalar, Vector3d_simd.op_sub_scalar);
       (Vector3d_simd.op_mul_assign_scalar, Vector3d_simd.op_mul_scalar);
       (Vector3d_simd.op_div_assign_scalar, Vector3d_simd.op_div_scalar) ]).
Proof.
  destruct a as [a0 a1 a2 na], af as [[f0 f1 f2 f3] nf], ad as [[d0 d1 d2 d3] nd].
  repeat split; repeat constructor.
Qed.

(** X5.  [set(x, y, z)] and assignment of a scalar leave the receiver
    as the three-argument constructor would build it (in the register
    classes the padding lane is zeroed), except that the insertion
    counter keeps its value; assignment of a vector takes the source's
    components (in the register classes its whole register, padding
    lane included) and likewise keeps the receiver's counter.  None of
    them reports anything.  So a [set] between [v << a] and the two
    continuations does not end the insertion: the continuations still
    store into y and z, over what [set] wrote there. *)
Theorem set_and_assignment_keep_counter
  (v other : Vector3_reg.vector3_reg)
  (vf otherf : Vector3f_simd.vector3f_simd)
  (vd otherd : Vector3d_simd.vector3d_simd) (a b c : spec_float) :
  (Method.call (Vector3_reg.set a b c) v =
     (tt, Method.mkState (Vector3_reg.mk a b c (Vector3_reg.been_inserted v)) []) /\
   Method.call (Vector3_reg.op_assign_scalar a) v =
     (tt, Method.mkState (Vector3_reg.mk a a a (Vector3_reg.been_inserted v)) []) /\
   Method.call (Vector3_reg.op_assign other) v =
     (tt, Method.mkState
            (Vector3_reg.mk (Vector3_reg.x other) (Vector3_reg.y other)
               (Vector3_reg.z other) (Vector3_reg.been_inserted v)) [])) /\
  (Method.call (Vector3f_simd.set a b c) vf =
     (tt, Method.mkState
            (Vector3f_simd.mk (Simd.mk4 a b c Elt.zero)
               (Vector3f_simd.been_inserted vf)) []) /\
   Method.call (Vector3f_simd.op_assign_scalar a) vf =
     (tt, Method.mkState
            (Vector3f_simd.mk (Simd.mk4 a a a Elt.zero)
               (Vector3f_simd.been_inserted vf)) []) /\
   Method.call (Vector3f_simd.op_assign otherf) vf =
     (tt, Method.mkState
            (Vector3f_simd.mk (Vector3f_simd.mmvalue otherf)
               (Vector3f_simd.been_inserted vf)) [])) /\
  (Method.call (Vector3d_simd.set a b c) vd =
     (tt, Method.mkState
            (Vector3d_simd.mk (Simd.mk4 a b c Elt.zero)
               (Vector3d_simd.been_inserted vd)) []) /\
   Method.call (Vector3d_simd.op_assign_scalar a) vd =
     (tt, Method.mkState
            (Vector3d_simd.mk (Simd.mk4 a a a Elt.zero)
               (Vector3d_simd.been_inserted vd)) []) /\
   Method.call (Vector3d_simd.op_assign otherd) vd =
     (tt, Method.mkState
            (Vector3d_simd.mk (Vector3d_simd.mmvalue otherd)
               (Vector3d_simd.been_inserted vd)) [])) /\
  (forall p q r : spec_float,
     Method.call (Vector3_reg.op_shl a ;; Vector3_reg.set p q r ;;
                  Vector3_reg.op_comma b ;; Vector3_reg.op_comma c)%method v =
       (tt, Method.mkState (Vector3_reg.mk p b c 3) []) /\
     Method.call (Vector3f_simd.op_shl a ;; Vector3f_simd.set p q r ;;
                  Vector3f_simd.op_comma b ;; Vector3f_simd.op_comma c)%method vf =
       (tt, Method.mkState (Vector3f_simd.mk (Simd.mk4 p b c Elt.zero) 3) []) /\
     Method.call (Vector3d_simd.op_shl a ;; Vector3d_simd.set p q r ;;
                  Vector3d_simd.op_comma b ;; Vector3d_simd.op_comma c)%method vd =
       (tt, Method.mkState (Vector3d_simd.mk (Simd.mk4 p b c Elt.zero) 3) [])).
Proof.
  destruct v as [x0 y0 z0 n], vf as [[xf yf zf pf] nf], vd as [[xd yd zd pd] nd].
  repeat split.
Qed.

(* ================================================================= *)
(** ** Insertion expressions of any length *)

(** Case analysis on a counter known to lie between 0 and 3. *)
Ltac counter_cases n :=
  assert (n = 0 \/ n = 1 \/ n = 2 \/ n = 3) as [-> | [-> | [-> | ->]]] by lia.

Lemma vector3_reg_step_counter (i : insertion) (s : Method.state Vector3_reg.vector3_reg) :
  0 <= Vector3_reg.been_inserted (Method.this s) <= 3 ->
  0 <= Vector3_reg.been_inserted
         (Method.this (snd (Vector3_reg.insert_all [i] s))) <= 3.
Proof.
  destruct s as [[x0 y0 z0 n] log], i as [value | value]; cbn [Method.this Vector3_reg.been_inserted].
  - intros _. cbn. lia.
  - intro H. counter_cases n; cbn; lia.
Qed.

Lemma vector3f_simd_step_counter (i : insertion) (s : Method.state Vector3f_simd.vector3f_simd) :
  0 <= Vector3f_simd.been_inserted (Method.this s) <= 3 ->
  0 <= Vector3f_simd.been_inserted
         (Method.this (snd (Vector3f_simd.insert_all [i] s))) <= 3.
Proof.
  destruct s as [[r n] log], i as [value | value]; cbn [Method.this Vector3f_simd.been_inserted].
  - intros _. cbn. lia.
  - intro H. counter_cases n; cbn; lia.
Qed.

Lemma vector3d_simd_step_counter (i : insertion) (s : Method.state Vector3d_simd.vector3d_simd) :
  0 <= Vector3d_simd.been_inserted (Method.this s) <= 3 ->
  0 <= Vector3d_simd.been_inserted
         (Method.this (snd (Vector3d_simd.insert_all [i] s))) <= 3.
Proof.
  destruct s as [[r n] log], i as [value | value]; cbn [Method.this Vector3d_simd.been_inserted].
  - intros _. cbn. lia.
  - intro H. counter_cases n; cbn; lia.
Qed.

(** Running a list of steps is running the first, then the rest. *)
Lemma vector3_reg_insert_cons (i : insertion) (rest : list insertion)
  (s : Method.state Vector3_reg.vector3_reg) :
  Vector3_reg.insert_all (i :: rest) s =
  Vector3_reg.insert_all rest (snd (Vector3_reg.insert_all [i] s)).
Proof.
  destruct i; cbn [Vector3_reg.insert_all]; unfold Method.bind, Method.ret;
    match goal with |- context [?c s] => destruct (c s) as [u s'] end; reflexivity.
Qed.

Lemma vector3f_simd_insert_cons (i : insertion) (rest : list insertion)
  (s : Method.state Vector3f_simd.vector3f_simd) :
  Vector3f_simd.insert_all (i :: rest) s =
  Vector3f_simd.insert_all rest (snd (Vector3f_simd.insert_all [i] s)).
Proof.
  destruct i; cbn [Vector3f_simd.insert_all]; unfold Method.bind, Method.ret;
    match goal with |- context [?c s] => destruct (c s) as [u s'] end; reflexivity.
Qed.

Lemma vector3d_simd_insert_cons (i : insertion) (rest : list insertion)
  (s : Method.state Vector3d_simd.vector3d_simd) :
  Vector3d_simd.insert_all (i :: rest) s =
  Vector3d_simd.insert_all rest (snd (Vector3d_simd.insert_all [i] s)).
Proof.
  destruct i; cbn [Vector3d_simd.insert_all]; unfold Method.bind, Method.ret;
    match goal with |- context [?c s] => destruct (c s) as [u s'] end; reflexivity.
Qed.

(** X6.  The insertion counter of a vector of any class stays between
    0 and 3 through every sequence of [<<] and continuation steps, so
    the [uint8_t] increment never wraps around. *)
Theorem insertion_counter_stays_in_range
  (steps : list insertion)
  (s : Method.state Vector3_reg.vector3_reg)
  (sf : Method.state Vector3f_simd.vector3f_simd)
  (sd : Method.state Vector3d_simd.vector3d_simd)
  (H : 0 <= Vector3_reg.been_inserted (Method.this s) <= 3)
  (Hf : 0 <= Vector3f_simd.been_inserted (Method.this sf) <= 3)
  (Hd : 0 <= Vector3d_simd.been_inserted (Method.this sd) <= 3) :
  0 <= Vector3_reg.been_inserted
         (Method.this (snd (Vector3_reg.insert_all steps s))) <= 3 /\
  0 <= Vector3f_simd.been_inserted
         (Method.this (snd (Vector3f_simd.insert_all steps sf))) <= 3 /\
  0 <= Vector3d_simd.been_inserted
         (Method.this (snd (Vector3d_simd.insert_all steps sd))) <= 3.
Proof.
  revert s sf sd H Hf Hd.
  induction steps as [ | i rest IH]; intros s sf sd H Hf Hd.
  - cbn. auto.
  - rewrite vector3_reg_insert_cons, vector3f_simd_insert_cons, vector3d_simd_insert_cons.
    apply IH.
    + now apply vector3_reg_step_counter.
    + now apply vector3f_simd_step_counter.
    + now apply vector3d_simd_step_counter.
Qed.

Lemma insertion_counter_stays_in_range_witness :
  (0 <= Vector3_reg.been_inserted Vector3_reg.ctor_default <= 3) /\
  0 <= Vector3d_simd.been_inserted
         (Method.this
            (snd (Vector3d_simd.insert_all
                    [Comma (f64 9); Shl (f64 1); Comma (f64 2); Comma (f64 3);
                     Comma (f64 4); Shl (f64 5); Comma (f64 6)]
                    (Method.mkState Vector3d_simd.ctor_default [])))) <= 3.
Proof.
  split; [ cbn; lia | ].
  refine (proj2 (proj2 (insertion_counter_stays_in_range _
            (Method.mkState Vector3_reg.ctor_default [])
            (Method.mkState Vector3f_simd.ctor_default [])
            (Method.mkState Vector3d_simd.ctor_default []) _ _ _))); cbn; lia.
Defined.

(** Continuations on a full vector: each is reported, none stores. *)
Lemma vector3_reg_commas_full (l : list spec_float) (s : Method.state Vector3_reg.vector3_reg) :
  3 <= Vector3_reg.been_inserted (Method.this s) ->
  Vector3_reg.insert_all (map Comma l) s =
  (tt, Method.mkState (Method.this s)
         (Method.cerr s ++ repeat too_many_message (List.length l))).
Proof.
  revert s. induction l as [ | a l IH]; intros s H.
  - destruct s. cbn. now rewrite app_nil_r.
  - cbn [map]. rewrite vector3_reg_insert_cons.
    cbn [Vector3_reg.insert_all]. unfold Method.bind, Method.ret.
    rewrite vector3_reg_comma_full by exact H. cbn [snd].
    rewrite IH by exact H. cbn [Method.this Method.cerr List.length repeat].
    now rewrite <- app_assoc.
Qed.

Lemma vector3f_simd_commas_full (l : list spec_float) (s : Method.state Vector3f_simd.vector3f_simd) :
  3 <= Vector3f_simd.been_inserted (Method.this s) ->
  Vector3f_simd.insert_all (map Comma l) s =
  (tt, Method.mkState (Method.this s)
         (Method.cerr s ++ repeat too_many_message (List.length l))).
Proof.
  revert s. induction l as [ | a l IH]; intros s H.
  - destruct s. cbn. now rewrite app_nil_r.
  - cbn [map]. rewrite vector3f_simd_insert_cons.
    cbn [Vector3f_simd.insert_all]. unfold Method.bind, Method.ret.
    rewrite vector3f_simd_comma_full by exact H. cbn [snd].
    rewrite IH by exact H. cbn [Method.this Method.cerr List.length repeat].
    now rewrite <- app_assoc.
Qed.

Lemma vector3d_simd_commas_full (l : list spec_float) (s : Method.state Vector3d_simd.vector3d_simd) :
  3 <= Vector3d_simd.been_inserted (Method.this s) ->
  Vector3d_simd.insert_all (map Comma l) s =
  (tt, Method.mkState (Method.this s)
         (Method.cerr s ++ repeat too_many_message (List.length l))).
Proof.
  revert s. induction l as [ | a l IH]; intros s H.
  - destruct s. cbn. now rewrite app_nil_r.
  - cbn [map]. rewrite vector3d_simd_insert_cons.
    cbn [Vector3d_simd.insert_all]. unfold Method.bind, Method.ret.
    rewrite vector3d_simd_comma_full by exact H. cbn [snd].
    rewrite IH by exact H. cbn [Method.this Method.cerr List.length repeat].
    now rewrite <- app_assoc.
Qed.

(** X7.  An insertion [v << a, b, c, d1, ..., dn] with any number n of
    surplus values stores a, b, c in x, y, z, leaves the counter at 3
    and reports the too-many message once for each surplus value, n
    times in all; a surplus value is never stored.  The shorter
    insertions [v << a] and [v << a, b] leave the components not yet
    reached as they were, with counter 1 and 2. *)
Theorem insertion_of_any_length
  (v : Vector3_reg.vector3_reg) (vf : Vector3f_simd.vector3f_simd)
  (vd : Vector3d_simd.vector3d_simd) (a b c : spec_float) (surplus : list spec_float) :
  (Method.call (Vector3_reg.insert_all
                  (Shl a :: Comma b :: Comma c :: map Comma surplus)) v =
     (tt, Method.mkState (Vector3_reg.mk a b c 3)
            (repeat too_many_message (List.length surplus))) /\
   Method.call (Vector3_reg.insert_all [Shl a]) v =
     (tt, Method.mkState (Vector3_reg.mk a (Vector3_reg.y v) (Vector3_reg.z v) 1) []) /\
   Method.call (Vector3_reg.insert_all [Shl a; Comma b]) v =
     (tt, Method.mkState (Vector3_reg.mk a b (Vector3_reg.z v) 2) [])) /\
  (Method.call (Vector3f_simd.insert_all
                  (Shl a :: Comma b :: Comma c :: map Comma surplus)) vf =
     (tt, Method.mkState
            (Vector3f_simd.mk (Simd.mk4 a b c (Vector3f_simd.padding vf)) 3)
            (repeat too_many_message (List.length surplus))) /\
   Method.call (Vector3f_simd.insert_all [Shl a]) vf =
     (tt, Method.mkState
            (Vector3f_simd.mk
               (Simd.mk4 a (Vector3f_simd.y vf) (Vector3f_simd.z vf)
                         (Vector3f_simd.padding vf)) 1) []) /\
   Method.call (Vector3f_simd.insert_all [Shl a; Comma b]) vf =
     (tt, Method.mkState
            (Vector3f_simd.mk
               (Simd.mk4 a b (Vector3f_simd.z vf) (Vector3f_simd.padding vf)) 2) [])) /\
  (Method.call (Vector3d_simd.insert_all
                  (Shl a :: Comma b :: Comma c :: map Comma surplus)) vd =
     (tt, Method.mkState
            (Vector3d_simd.mk (Simd.mk4 a b c (Vector3d_simd.padding vd)) 3)
            (repeat too_many_message (List.length surplus))) /\
   Method.call (Vector3d_simd.insert_all [Shl a]) vd =
     (tt, Method.mkState
            (Vector3d_simd.mk
               (Simd.mk4 a (Vector3d_simd.y vd) (Vector3d_simd.z vd)
                         (Vector3d_simd.padding vd)) 1) []) /\
   Method.call (Vector3d_simd.insert_all [Shl a; Comma b]) vd =
     (tt, Method.mkState
            (Vector3d_simd.mk
               (Simd.mk4 a b (Vector3d_simd.z vd) (Vector3d_simd.padding vd)) 2) [])).
Proof.
  destruct v as [x0 y0 z0 n], vf as [[xf yf zf pf] nf], vd as [[xd yd zd pd] nd].
  unfold Method.call.
  repeat split; try reflexivity.
  - rewrite (vector3_reg_insert_cons (Shl a)), (vector3_reg_insert_cons (Comma b)),
            (vector3_reg_insert_cons (Comma c)).
    rewrite vector3_reg_commas_full by (cbn; lia). reflexivity.
  - rewrite (vector3f_simd_insert_cons (Shl a)), (vector3f_simd_insert_cons (Comma b)),
            (vector3f_simd_insert_cons (Comma c)).
    rewrite vector3f_simd_commas_full by (cbn; lia). reflexivity.
  - rewrite (vector3d_simd_insert_cons (Shl a)), (vector3d_simd_insert_cons (Comma b)),
            (vector3d_simd_insert_cons (Comma c)).
    rewrite vector3d_simd_commas_full by (cbn; lia). reflexivity.
Qed.

(* ================================================================= *)
(** ** The register classes against the scalar class *)

(** The scalar vector with the components of a register vector. *)
Lemma scalar_view_components (a b c : spec_float) :
  Vector3_reg.xyz (Vector3_reg.ctor a b c) = (a, b, c).
Proof. reflexivity. Qed.


(** X9.  The narrow-lane dot product is the scalar class's [float] dot
    product of the same components, bit for bit, with one exception:
    where the scalar sum is the negative zero the narrow-lane result
    is the positive zero. *)
Theorem vector3f_simd_dot_matches_scalar (vf wf : Vector3f_simd.vector3f_simd) :
  let narrow := Vector3f_simd.dot vf wf in
  let scalar :=
    Vector3_reg.dot Elt.binary32
      (Vector3_reg.ctor (Vector3f_simd.x vf) (Vector3f_simd.y vf) (Vector3f_simd.z vf))
      (Vector3_reg.ctor (Vector3f_simd.x wf) (Vector3f_simd.y wf) (Vector3f_simd.z wf)) in
  narrow = scalar \/ (scalar = S754_zero true /\ narrow = S754_zero false).
Proof.
  intros narrow scalar. subst narrow scalar.
  rewrite vector3f_simd_dot_value, vector3_reg_dot_value.
  cbn [Vector3_reg.x Vector3_reg.y Vector3_reg.z Vector3_reg.ctor].
  set (X := Elt.mul Elt.binary32 (Vector3f_simd.x vf) (Vector3f_simd.x wf)).
  set (Y := Elt.mul Elt.binary32 (Vector3f_simd.y vf) (Vector3f_simd.y wf)).
  set (Z := Elt.mul Elt.binary32 (Vector3f_simd.z vf) (Vector3f_simd.z wf)).
  rewrite (add_comm Elt.binary32 Y X).
  set (S := Elt.add Elt.binary32 X Y).
  rewrite (add_comm Elt.binary32 _ S).
  assert (HZ : Z = S754_zero true \/ Z <> S754_zero true).
  { destruct Z as [[|] | | | ]; (now left) || (right; discriminate). }
  destruct HZ as [HZ | HZ].
  - rewrite HZ.
    change (Elt.add Elt.binary32 Elt.zero (S754_zero true)) with (S754_zero false).
    unfold Elt.add at 2. rewrite SFadd_negative_zero_r.
    assert (HS : S = S754_zero true \/ S <> S754_zero true).
    { destruct S as [[|] | | | ]; (now left) || (right; discriminate). }
    destruct HS as [HS | HS].
    + right. rewrite HS. split; reflexivity.
    + left. unfold Elt.add. now apply SFadd_zero_r.
  - left. f_equal. unfold Elt.add, Elt.zero. now apply SFadd_zero_l.
Qed.

(** X10.  [length()] of a narrow-lane vector is, bit for bit, the
    scalar class's [float] length of the same components, whatever the
    padding lane holds. *)
Theorem vector3f_simd_length_matches_scalar (vf : Vector3f_simd.vector3f_simd) :
  Vector3f_simd.length vf =
  Vector3_reg.length Elt.binary32
    (Vector3_reg.ctor (Vector3f_simd.x vf) (Vector3f_simd.y vf) (Vector3f_simd.z vf)).
Proof.
  destruct vf as [[x0 y0 z0 p] n].
  unfold Vector3_reg.length.
  cbn [Vector3_reg.x Vector3_reg.y Vector3_reg.z Vector3_reg.ctor].
  change (Vector3f_simd.length (Vector3f_simd.mk (Simd.mk4 x0 y0 z0 p) n))
    with (Elt.sqrt Elt.binary32
            (Elt.add Elt.binary32
               (Elt.add Elt.binary32 Elt.zero (Elt.mul Elt.binary32 z0 z0))
               (Elt.add Elt.binary32 (Elt.mul Elt.binary32 y0 y0)
                                     (Elt.mul Elt.binary32 x0 x0)))).
  rewrite zero_add_square.
  rewrite (add_comm Elt.binary32 (Elt.mul Elt.binary32 y0 y0)).
  rewrite (add_comm Elt.binary32 (Elt.mul Elt.binary32 z0 z0)).
  reflexivity.
Qed.

(** X11.  For a wide-lane vector built by the constructors and the
    arithmetic operators, [length()], [rlength()] and the dot product
    of the vector with itself are, bit for bit, those of the scalar
    class in [double] on the same components. *)
Theorem vector3d_simd_length_matches_scalar
  (vd : Vector3d_simd.vector3d_simd) (Hb : Vector3d_simd.built vd) :
  let s := Vector3_reg.ctor (Vector3d_simd.x vd) (Vector3d_simd.y vd)
                            (Vector3d_simd.z vd) in
  Vector3d_simd.length vd = Vector3_reg.length Elt.binary64 s /\
  Vector3d_simd.rlength vd = Vector3_reg.rlength Elt.binary64 s /\
  Vector3d_simd.dot vd vd = Vector3_reg.dot Elt.binary64 s s.
Proof.
  intro s. subst s.
  assert (H : Vector3d_simd.length vd =
              Vector3_reg.length Elt.binary64
                (Vector3_reg.ctor (Vector3d_simd.x vd) (Vector3d_simd.y vd)
                                  (Vector3d_simd.z vd))).
  { rewrite vector3d_simd_length_value, (vector3d_simd_built_padding vd Hb).
    change (Elt.mul Elt.binary64 Elt.zero Elt.zero) with Elt.zero.
    rewrite add_square_zero.
    unfold Vector3_reg.length.
    cbn [Vector3_reg.x Vector3_reg.y Vector3_reg.z Vector3_reg.ctor].
    rewrite (add_comm Elt.binary64 (Elt.mul Elt.binary64 (Vector3d_simd.z vd) _)).
    reflexivity. }
  split; [ exact H | split ].
  - unfold Vector3d_simd.rlength, Vector3_reg.rlength. rewrite H. reflexivity.
  - rewrite vector3d_simd_dot_value, (vector3d_simd_built_padding vd Hb).
    change (Elt.mul Elt.binary64 Elt.zero Elt.zero) with Elt.zero.
    rewrite add_square_zero.
    unfold Vector3_reg.dot.
    cbn [Vector3_reg.x Vector3_reg.y Vector3_reg.z Vector3_reg.ctor].
    rewrite (add_comm Elt.binary64 (Elt.mul Elt.binary64 (Vector3d_simd.z vd) _)).
    reflexivity.
Qed.

Lemma vector3d_simd_length_matches_scalar_witness :
  let vd := Vector3d_simd.op_add_scalar
              (Vector3d_simd.cross (Vector3d_simd.ctor (f64 1) (f64 2) (f64 3))
                                   (Vector3d_simd.ctor (f64 4) (f64 5) (f64 6)))
              (f64 7) in
  Vector3d_simd.built vd /\
  Vector3d_simd.length vd =
    Vector3_reg.length Elt.binary64
      (Vector3_reg.ctor (Vector3d_simd.x vd) (Vector3d_simd.y vd) (Vector3d_simd.z vd)).
Proof.
  intro vd.
  assert (Hb : Vector3d_simd.built vd)
    by (apply Vector3d_simd.built_add_scalar, Vector3d_simd.built_cross;
        apply Vector3d_simd.built_ctor).
  split; [ exact Hb | ].
  exact (proj1 (vector3d_simd_length_matches_scalar vd Hb)).
Defined.

(** X12.  In the narrow-lane class [dot], [length], [rlength] and the
    x, y, z of [normalize()] do not depend on the padding lanes: they
    are the same after the fourth lane of either vector is replaced by
    any value. *)
Theorem vector3f_simd_products_ignore_padding
  (rsqrt : spec_float -> spec_float) (v w : Vector3f_simd.vector3f_simd)
  (p q : spec_float) (log : list string) :
  let v' := Vector3f_simd.ctor_reg (Simd.set_lane3 (Vector3f_simd.mmvalue v) p) in
  let w' := Vector3f_simd.ctor_reg (Simd.set_lane3 (Vector3f_simd.mmvalue w) q) in
  Vector3f_simd.dot v' w' = Vector3f_simd.dot v w /\
  Vector3f_simd.length v' = Vector3f_simd.length v /\
  Vector3f_simd.rlength rsqrt v' = Vector3f_simd.rlength rsqrt v /\
  Vector3f_simd.xyz (fst (Vector3f_simd.normalize rsqrt (Method.mkState v' log))) =
    Vector3f_simd.xyz (fst (Vector3f_simd.normalize rsqrt (Method.mkState v log))).
Proof.
  destruct v as [[x0 y0 z0 p0] n], w as [[x1 y1 z1 p1] m].
  repeat split.
Qed.

(** The sum of three squares, and of four, is not negative. *)
Lemma sum_of_squares_not_negative (fmt : Elt.format) (a b c : spec_float) :
  Elt.is_negative
    (Elt.add fmt (Elt.add fmt (Elt.mul fmt a a) (Elt.mul fmt b b)) (Elt.mul fmt c c)) = false.
Proof.
  unfold Elt.add, Elt.mul.
  repeat apply SFadd_not_negative; apply SFmul_self_not_negative.
Qed.

(** X13.  [length()] never returns a negative number or the negative
    zero, in any class and for any contents of the vector: its result
    is NaN or has a clear sign bit. *)
Theorem length_is_not_negative
  (fmt : Elt.format) (v : Vector3_reg.vector3_reg)
  (vf : Vector3f_simd.vector3f_simd) (vd : Vector3d_simd.vector3d_simd) :
  Elt.is_negative (Vector3_reg.length fmt v) = false /\
  Elt.is_negative (Vector3f_simd.length vf) = false /\
  Elt.is_negative (Vector3d_simd.length vd) = false.
Proof.
  split; [ | split ].
  - unfold Vector3_reg.length, Elt.sqrt.
    apply SFsqrt_not_negative, sum_of_squares_not_negative.
  - destruct vf as [[x0 y0 z0 p] n].
    change (Vector3f_simd.length (Vector3f_simd.mk (Simd.mk4 x0 y0 z0 p) n))
      with (SFsqrt 24 128
              (SFadd 24 128 (SFadd 24 128 (S754_zero false) (SFmul 24 128 z0 z0))
                            (SFadd 24 128 (SFmul 24 128 y0 y0) (SFmul 24 128 x0 x0)))).
    apply SFsqrt_not_negative.
    repeat apply SFadd_not_negative;
      (reflexivity || apply SFmul_self_not_negative).
  - rewrite vector3d_simd_length_value. unfold Elt.sqrt, Elt.add, Elt.mul.
    apply SFsqrt_not_negative.
    repeat apply SFadd_not_negative; apply SFmul_self_not_negative.
Qed.

(* ================================================================= *)
(** ** Stream parse on short or failed input *)

(** X14.  [input >> v] on a stream that has already failed changes
    neither the vector nor the stream.  On a good stream that ends
    early the numbers that were read are stored, in the order x, y, z,
    the components not reached keep their values and the stream is
    left failed; text that is no number stores zero in the component
    being read and leaves the later ones alone. *)
Theorem stream_parse_on_short_input
  (v : Vector3_reg.vector3_reg) (vf : Vector3f_simd.vector3f_simd)
  (vd : Vector3d_simd.vector3d_simd)
  (toks : list Istream.token) (a b : spec_float) :
  let failed := Istream.mkStream toks true in
  let stream (l : list Istream.token) := Istream.mkStream l false in
  let ended := Istream.mkStream [] true in
  let stuck := Istream.mkStream (Istream.Junk :: toks) true in
  (Vector3_reg.op_extract failed v = (failed, v) /\
   Vector3_reg.op_extract (stream []) v = (ended, v) /\
   Vector3_reg.op_extract (stream [Istream.Num a]) v = (ended, Vector3_reg.set_x v a) /\
   Vector3_reg.op_extract (stream [Istream.Num a; Istream.Num b]) v =
     (ended, Vector3_reg.set_y (Vector3_reg.set_x v a) b) /\
   Vector3_reg.op_extract (stream (Istream.Num a :: Istream.Junk :: toks)) v =
     (stuck, Vector3_reg.set_y (Vector3_reg.set_x v a) Elt.zero)) /\
  (Vector3f_simd.op_extract failed vf = (failed, vf) /\
   Vector3f_simd.op_extract (stream []) vf = (ended, vf) /\
   Vector3f_simd.op_extract (stream [Istream.Num a]) vf =
     (ended, Vector3f_simd.set_x vf a) /\
   Vector3f_simd.op_extract (stream [Istream.Num a; Istream.Num b]) vf =
     (ended, Vector3f_simd.set_y (Vector3f_simd.set_x vf a) b) /\
   Vector3f_simd.op_extract (stream (Istream.Num a :: Istream.Junk :: toks)) vf =
     (stuck, Vector3f_simd.set_y (Vector3f_simd.set_x vf a) Elt.zero)) /\
  (Vector3d_simd.op_extract failed vd = (failed, vd) /\
   Vector3d_simd.op_extract (stream []) vd = (ended, vd) /\
   Vector3d_simd.op_extract (stream [Istream.Num a]) vd =
     (ended, Vector3d_simd.set_x vd a) /\
   Vector3d_simd.op_extract (stream [Istream.Num a; Istream.Num b]) vd =
     (ended, Vector3d_simd.set_y (Vector3d_simd.set_x vd a) b) /\
   Vector3d_simd.op_extract (stream (Istream.Num a :: Istream.Junk :: toks)) vd =
     (stuck, Vector3d_simd.set_y (Vector3d_simd.set_x vd a) Elt.zero)).
Proof.
  destruct v as [x0 y0 z0 n], vf as [[xf yf zf pf] nf], vd as [[xd yd zd pd] nd].
  repeat split.
Qed.

(* ================================================================= *)
(** ** normalize on a vector of length zero *)

(** X15.  When [length()] of a vector is zero, every component of
    [normalize()] is NaN or an infinity, in the scalar class (which
    divides by the length) and in the wide-lane class (which multiplies
    by 1/length = infinity); no finite component comes out. *)
Theorem normalize_of_zero_length
  (fmt : Elt.format) (v : Vector3_reg.vector3_reg) (vd : Vector3d_simd.vector3d_simd)
  (log : list string)
  (Hv : Elt.is_zero (Vector3_reg.length fmt v) = true)
  (Hd : Elt.is_zero (Vector3d_simd.length vd) = true) :
  let r := fst (Vector3_reg.normalize fmt (Method.mkState v log)) in
  let rd := fst (Vector3d_simd.normalize (Method.mkState vd log)) in
  (Elt.is_nan_or_inf (Vector3_reg.x r) = true /\
   Elt.is_nan_or_inf (Vector3_reg.y r) = true /\
   Elt.is_nan_or_inf (Vector3_reg.z r) = true) /\
  (Elt.is_nan_or_inf (Vector3d_simd.x rd) = true /\
   Elt.is_nan_or_inf (Vector3d_simd.y rd) = true /\
   Elt.is_nan_or_inf (Vector3d_simd.z rd) = true).
Proof.
  intros r rd. subst r rd. split.
  - destruct v as [x0 y0 z0 n].
    unfold Vector3_reg.normalize, Method.bind, Method.self, Method.ret.
    cbn [fst Method.this Vector3_reg.x Vector3_reg.y Vector3_reg.z Vector3_reg.ctor
         Vector3_reg.set_x Vector3_reg.set_y Vector3_reg.set_z
         Vector3_reg.been_inserted].
    destruct (Vector3_reg.length fmt _) as [s | s | | s m e]; try discriminate Hv.
    unfold Elt.div. repeat split; apply SFdiv_by_zero.
  - destruct vd as [[x0 y0 z0 p] n].
    unfold Vector3d_simd.normalize, Method.bind, Method.self, Method.ret.
    cbn [fst Method.this]. unfold Vector3d_simd.rlength.
    destruct (Vector3d_simd.length _) as [s | s | | s m e]; try discriminate Hd.
    change (Elt.div Elt.binary64 Vector3d_simd.one (S754_zero s))
      with (S754_infinity s).
    unfold Vector3d_simd.x, Vector3d_simd.y, Vector3d_simd.z.
    cbn [Vector3d_simd.mmvalue Vector3d_simd.ctor_reg Simd._mm256_mul_pd
         Simd._mm256_set1_pd Simd.lanewise Simd.lane0 Simd.lane1 Simd.lane2 Simd.lane3].
    unfold Elt.mul. repeat split; apply SFmul_by_infinity.
Qed.

Lemma normalize_of_zero_length_witness :
  (Elt.is_zero (Vector3_reg.length Elt.binary64 Vector3_reg.ctor_default) = true /\
   Elt.is_zero (Vector3d_simd.length Vector3d_simd.ctor_default) = true) /\
  Elt.is_nan_or_inf
    (Vector3_reg.x (fst (Vector3_reg.normalize Elt.binary64
                           (Method.mkState Vector3_reg.ctor_default [])))) = true /\
  Elt.is_nan_or_inf
    (Vector3d_simd.x (fst (Vector3d_simd.normalize
                             (Method.mkState Vector3d_simd.ctor_default [])))) = true.
Proof.
  split; [ split; reflexivity | ].
  pose proof (normalize_of_zero_length Elt.binary64 Vector3_reg.ctor_default
                Vector3d_simd.ctor_default [] eq_refl eq_refl) as H.
  split; [ exact (proj1 (proj1 H)) | exact (proj1 (proj2 H)) ].
Defined.
